(** * Millis AI bridge: agent store, HTTP facade and MCP tool facade

    A shallow embedding of the three JavaScript sources of the bridge:

    - [agent-database.js]: the module-level connection handle and the
      [Agents] repository over the MongoDB collection ['agents'];
    - the Express application (routes [/api/get-agent-prompt],
      [/api/availability], [/api/doctors], [/api/book-appointment],
      [/api/cancel-appointment], [/api/create-agent], [/api/agents]);
    - the MCP server, whose [CallTool] dispatcher switches on the tool name.

    Asynchronous functions are run to completion one after the other: an
    [async] function becomes a computation in the monad [M], which threads
    one [world] (module variables, the MongoDB deployment, the clock and the
    trace of outbound [fetch] calls) and may end in a thrown JavaScript
    error.  A thrown error keeps the effects performed before it, as in
    JavaScript.  [console.log] and [console.error] are not modelled. *)

From Stdlib Require Import String Ascii List ZArith NArith Bool Arith Lia Permutation.
Import ListNotations.
Local Open Scope string_scope.
Local Open Scope list_scope.
Set Warnings "-register-all".

(* ================================================================== *)
(** ** JavaScript values, errors and the built-ins the sources call   *)
(* ================================================================== *)

Module Js.

(** JSON-shaped values, plus the two object kinds the MongoDB driver hands
    back ([Date] and [ObjectId]).  An object is the list of its own
    properties in insertion order.  Numbers are integers: the bridge never
    computes with a number, it only tests one for truthiness or relays it. *)
Inductive value : Type :=
| VUndefined
| VNull
| VBool (b : bool)
| VNum (n : Z)
| VStr (s : string)
| VArr (items : list value)
| VObj (props : list (string * value))
| VDate (ms : Z)
| VObjectId (oid : N).

(** ToBoolean. *)
Definition truthy (v : value) : bool :=
  match v with
  | VUndefined | VNull => false
  | VBool b => b
  | VNum n => negb (n =? 0)%Z
  | VStr s => negb (s =? "")
  | VArr _ | VObj _ | VDate _ | VObjectId _ => true
  end.

(** [a || b] on values. *)
Definition or_else (a b : value) : value := if truthy a then a else b.

(** A thrown [Error] object: the three properties the sources read. *)
Record js_error : Type := mk_error {
  err_name : string;
  message : string;
  stack : string
}.

Definition new_error (name msg : string) : js_error :=
  {| err_name := name; message := msg; stack := name ++ ": " ++ msg |}.

Definition TypeError (msg : string) : js_error := new_error "TypeError" msg.
Definition SyntaxError (msg : string) : js_error := new_error "SyntaxError" msg.

(** Result of evaluating an expression or running a statement list. *)
Inductive outcome (A : Type) : Type :=
| Ok (a : A)
| Throw (e : js_error).
Arguments Ok {A} a.
Arguments Throw {A} e.

Definition is_ok {A : Type} (o : outcome A) : bool :=
  match o with Ok _ => true | Throw _ => false end.

Fixpoint assoc (k : string) (props : list (string * value)) : option value :=
  match props with
  | [] => None
  | (k', v) :: rest => if k' =? k then Some v else assoc k rest
  end.

(** Property read [v.k] for the property names the sources use (none of
    them is a built-in property of a primitive or of an array). *)
Definition get_prop (v : value) (k : string) : outcome value :=
  match v with
  | VUndefined =>
      Throw (TypeError ("Cannot read properties of undefined (reading '" ++ k ++ "')"))
  | VNull =>
      Throw (TypeError ("Cannot read properties of null (reading '" ++ k ++ "')"))
  | VObj props =>
      Ok (match assoc k props with Some x => x | None => VUndefined end)
  | _ => Ok VUndefined
  end.

(** Optional chaining [v?.k]. *)
Definition get_prop_opt (v : value) (k : string) : outcome value :=
  match v with
  | VUndefined | VNull => Ok VUndefined
  | _ => get_prop v k
  end.

(** Object destructuring [const { k } = v] reads the property the same way. *)
Definition prop_or_undefined (v : value) (k : string) : value :=
  match v with
  | VObj props => match assoc k props with Some x => x | None => VUndefined end
  | _ => VUndefined
  end.

(** *** Strings *)

Definition is_digit (c : ascii) : bool :=
  let n := nat_of_ascii c in ((48 <=? n) && (n <=? 57))%nat.

Definition is_alpha (c : ascii) : bool :=
  let n := nat_of_ascii c in
  (((65 <=? n) && (n <=? 90)) || ((97 <=? n) && (n <=? 122)))%nat.

Fixpoint filter_chars (keep : ascii -> bool) (s : string) : string :=
  match s with
  | EmptyString => EmptyString
  | String c rest =>
      if keep c then String c (filter_chars keep rest) else filter_chars keep rest
  end.

Fixpoint all_chars (p : ascii -> bool) (s : string) : bool :=
  match s with
  | EmptyString => true
  | String c rest => p c && all_chars p rest
  end.

(** [s.replace(/\D/g, '')]: every character that is not one of [0-9] is
    dropped.  A string is its UTF-8 bytes here; [\D] matches every code unit
    of a non-ASCII character, so dropping the bytes gives the same result. *)
Definition strip_non_digits (s : string) : string := filter_chars is_digit s.

Definition hex_digit (n : nat) : ascii :=
  (if n <? 10 then ascii_of_nat (48 + n) else ascii_of_nat (55 + n))%nat.

Definition percent_byte (c : ascii) : string :=
  let n := nat_of_ascii c in
  String "%" (String (hex_digit (n / 16)%nat)
                (String (hex_digit (n mod 16)%nat) EmptyString)).

Fixpoint mem_char (c : ascii) (s : string) : bool :=
  match s with
  | EmptyString => false
  | String d rest => Ascii.eqb c d || mem_char c rest
  end.

(** [encodeURIComponent]: letters, digits and [-_.!~*'()] stay, every other
    byte of the UTF-8 form is percent-encoded. *)
Definition uri_unreserved (c : ascii) : bool :=
  is_alpha c || is_digit c || mem_char c "-_.!~*'()".

Fixpoint encodeURIComponent (s : string) : string :=
  match s with
  | EmptyString => EmptyString
  | String c rest =>
      if uri_unreserved c
      then String c (encodeURIComponent rest)
      else percent_byte c ++ encodeURIComponent rest
  end.

(** [URLSearchParams]: the list of name/value pairs and its
    [application/x-www-form-urlencoded] serialisation. *)
Definition URLSearchParams : Type := list (string * string).

Definition form_safe (c : ascii) : bool :=
  is_alpha c || is_digit c || mem_char c "*-._".

Fixpoint form_encode (s : string) : string :=
  match s with
  | EmptyString => EmptyString
  | String c rest =>
      if form_safe c then String c (form_encode rest)
      else if Ascii.eqb c " " then String "+" (form_encode rest)
      else percent_byte c ++ form_encode rest
  end.

Fixpoint params_toString (p : URLSearchParams) : string :=
  match p with
  | [] => ""
  | [(k, v)] => form_encode k ++ "=" ++ form_encode v
  | (k, v) :: rest => form_encode k ++ "=" ++ form_encode v ++ "&" ++ params_toString rest
  end.

(** [if (v) params.append(k, v)] for an optional string [v]. *)
Definition append_if (k : string) (v : option string) (p : URLSearchParams)
  : URLSearchParams :=
  match v with
  | Some s => if s =? "" then p else p ++ [(k, s)]
  | None => p
  end.

(** Truthiness of a value that is either [undefined] or a string. *)
Definition truthy_str (v : option string) : bool :=
  match v with
  | Some s => negb (s =? "")
  | None => false
  end.

(** An optional string as a value, [undefined] when absent. *)
Definition of_str (v : option string) : value :=
  match v with Some s => VStr s | None => VUndefined end.

(** Template-literal interpolation of an optional string. *)
Definition interp (v : option string) : string :=
  match v with Some s => s | None => "undefined" end.

(** A value of Express's [req.query]: a string, or, for a name that is
    repeated or written with brackets, an array or an object of such
    values. *)
Inductive query_value : Type :=
| QStr (s : string)
| QArr (items : list query_value)
| QObj (props : list (string * query_value)).

(** [Array.prototype.join(',')] on strings. *)
Fixpoint join_comma (l : list string) : string :=
  match l with
  | [] => ""
  | s :: rest =>
      match rest with
      | [] => s
      | _ => s ++ "," ++ join_comma rest
      end
  end.

(** [String(v)]: an array is its elements' strings joined by commas, an
    object is ["[object Object]"]. *)
Fixpoint query_toString (v : query_value) : string :=
  match v with
  | QStr s => s
  | QArr items => join_comma (map query_toString items)
  | QObj _ => "[object Object]"
  end.

(** [new URLSearchParams(record)]: one pair per property, in order, the
    value converted to a string. *)
Definition URLSearchParams_of (record : list (string * query_value)) : URLSearchParams :=
  map (fun kv => (fst kv, query_toString (snd kv))) record.

End Js.
Import Js.


(* ================================================================== *)
(** ** The world the three modules run in                             *)
(* ================================================================== *)

(** An outbound [fetch(url, init)] call.  [req_body] is the value handed
    to [JSON.stringify] for the request body ([None] when [fetch] is
    called with a URL only). *)
Inductive http_method : Type := GET | POST.

Record request : Type := mk_request {
  req_method : http_method;
  req_url : string;
  req_body : option value
}.

(** What [fetch] does: it rejects (network failure), or it resolves to a
    response with a status code and a body, which [response.json()] parses
    ([None]: the body is not JSON). *)
Inductive fetch_outcome : Type :=
| NetworkError (msg : string)
| Responded (status : Z) (json : option value).

(** A document of the ['agents'] collection.  [agentId], [agentName] and
    [phoneNumber] are strings or [null] ([None]); [active] is a boolean or
    [null]. *)
Record agent : Type := mk_agent {
  _id : N;
  agentId : option string;
  agentName : option string;
  phoneNumber : option string;
  agentPrompt : value;
  active : option bool;
  metadata : value;
  createdAt : Z;
  updatedAt : Z
}.

Record world : Type := mk_world {
  (* agent-database.js: [let client = null; let db = null;] *)
  client : option nat;
  db : option nat;
  (* the MongoDB deployment named by MONGODB_URI / DB_NAME *)
  mongo_up : bool;
  connections : nat;
  index_builds : nat;
  unique_agentId : bool;
  unique_phoneNumber : bool;
  index_active : bool;
  agents_coll : list agent;
  next_oid : N;
  (* the clock read by [new Date()], in milliseconds *)
  clock : Z;
  (* the upstream backend and the [fetch] calls issued so far, oldest first *)
  upstream : request -> fetch_outcome;
  outbox : list request
}.

Definition set_client (c : option nat) (w : world) : world :=
  mk_world c (db w) (mongo_up w) (connections w) (index_builds w)
    (unique_agentId w) (unique_phoneNumber w) (index_active w)
    (agents_coll w) (next_oid w) (clock w) (upstream w) (outbox w).

Definition set_db (d : option nat) (w : world) : world :=
  mk_world (client w) d (mongo_up w) (connections w) (index_builds w)
    (unique_agentId w) (unique_phoneNumber w) (index_active w)
    (agents_coll w) (next_oid w) (clock w) (upstream w) (outbox w).

Definition set_connections (n : nat) (w : world) : world :=
  mk_world (client w) (db w) (mongo_up w) n (index_builds w)
    (unique_agentId w) (unique_phoneNumber w) (index_active w)
    (agents_coll w) (next_oid w) (clock w) (upstream w) (outbox w).

Definition set_index_builds (n : nat) (w : world) : world :=
  mk_world (client w) (db w) (mongo_up w) (connections w) n
    (unique_agentId w) (unique_phoneNumber w) (index_active w)
    (agents_coll w) (next_oid w) (clock w) (upstream w) (outbox w).

Definition set_indexes (ua up ia : bool) (w : world) : world :=
  mk_world (client w) (db w) (mongo_up w) (connections w) (index_builds w)
    ua up ia
    (agents_coll w) (next_oid w) (clock w) (upstream w) (outbox w).

Definition set_agents (l : list agent) (w : world) : world :=
  mk_world (client w) (db w) (mongo_up w) (connections w) (index_builds w)
    (unique_agentId w) (unique_phoneNumber w) (index_active w)
    l (next_oid w) (clock w) (upstream w) (outbox w).

Definition set_next_oid (n : N) (w : world) : world :=
  mk_world (client w) (db w) (mongo_up w) (connections w) (index_builds w)
    (unique_agentId w) (unique_phoneNumber w) (index_active w)
    (agents_coll w) n (clock w) (upstream w) (outbox w).

Definition set_outbox (o : list request) (w : world) : world :=
  mk_world (client w) (db w) (mongo_up w) (connections w) (index_builds w)
    (unique_agentId w) (unique_phoneNumber w) (index_active w)
    (agents_coll w) (next_oid w) (clock w) (upstream w) o.

(** The clock advances by [ms]. *)
Definition tick (ms : Z) (w : world) : world :=
  mk_world (client w) (db w) (mongo_up w) (connections w) (index_builds w)
    (unique_agentId w) (unique_phoneNumber w) (index_active w)
    (agents_coll w) (next_oid w) (clock w + ms)%Z (upstream w) (outbox w).

(** *** The monad of handlers *)

Definition M (A : Type) : Type := world -> outcome A * world.

Definition ret {A : Type} (a : A) : M A := fun w => (Ok a, w).

Definition bind {A B : Type} (m : M A) (k : A -> M B) : M B :=
  fun w =>
    match m w with
    | (Ok a, w') => k a w'
    | (Throw e, w') => (Throw e, w')
    end.

Definition throw {A : Type} (e : js_error) : M A := fun w => (Throw e, w).

(** [try { m } catch (e) { h e }]. *)
Definition try_catch {A : Type} (m : M A) (h : js_error -> M A) : M A :=
  fun w =>
    match m w with
    | (Ok a, w') => (Ok a, w')
    | (Throw e, w') => h e w'
    end.

Definition lift {A : Type} (o : outcome A) : M A := fun w => (o, w).

Definition gets {A : Type} (f : world -> A) : M A := fun w => (Ok (f w), w).

Definition modify (f : world -> world) : M unit := fun w => (Ok tt, f w).

Declare Scope js_scope.
Delimit Scope js_scope with js.
Notation "x <- m ;; k" := (bind m (fun x => k))
  (at level 61, m at next level, right associativity) : js_scope.
Notation "m ;;; k" := (bind m (fun _ => k))
  (at level 61, right associativity) : js_scope.
Local Open Scope js_scope.

(** [new Date()]. *)
Definition new_Date : M Z := gets clock.

(** [await fetch(...)]: the call is recorded, the backend answers. *)
Definition fetch (r : request) : M fetch_outcome :=
  fun w => (Ok (upstream w r), set_outbox (outbox w ++ [r]) w).

Definition response_ok (status : Z) : bool :=
  ((200 <=? status) && (status <=? 299))%Z.

(** [await response.json()]. *)
Definition response_json (body : option value) : M value :=
  match body with
  | Some v => ret v
  | None => throw (SyntaxError "Unexpected token in JSON")
  end.

(** [const response = await fetch(...)]: a rejected promise throws. *)
Definition await_fetch (r : request) : M (Z * option value) :=
  o <- fetch r ;;
  match o with
  | NetworkError msg => throw (TypeError msg)
  | Responded status body => ret (status, body)
  end.

(** An Express response: [res.status(s).json(body)]; [res.json(body)]
    leaves the status at 200.  [body] is the value given to [res.json]. *)
Record http_response : Type := mk_response {
  status : Z;
  body : value
}.

Definition res_json (v : value) : http_response := mk_response 200 v.

(* ================================================================== *)
(** ** The MongoDB driver, as far as [agent-database.js] uses it      *)
(* ================================================================== *)

(** The driver and the server are collaborators, not part of the bridge;
    this is their documented behaviour on the one collection, for the
    calls the repository makes: equality filters on [agentId],
    [phoneNumber] and [active], [updateOne] with [$set] / [$setOnInsert],
    [deleteOne], and unique indexes.  A command fails with a network error
    while the deployment is down.  [undefined] is stored as [null]. *)
Module Mongo.

Definition MongoNetworkError : js_error :=
  new_error "MongoNetworkError" "connect ECONNREFUSED".

Definition DuplicateKey (index : string) : js_error :=
  new_error "MongoServerError"
    ("E11000 duplicate key error collection: agents index: " ++ index).

(** Equality of two keys that are strings or [null]. *)
Definition key_eqb (a b : option string) : bool :=
  match a, b with
  | Some x, Some y => x =? y
  | None, None => true
  | _, _ => false
  end.

(** BSON serialisation turns [undefined] into [null]. *)
Fixpoint bson (v : value) : value :=
  match v with
  | VUndefined => VNull
  | VArr items => VArr (map bson items)
  | VObj props => VObj (map (fun kv => (fst kv, bson (snd kv))) props)
  | _ => v
  end.

Definition command {A : Type} (m : M A) : M A :=
  fun w => if mongo_up w then m w else (Throw MongoNetworkError, w).

Fixpoint has_dup (key : agent -> option string) (l : list agent) : bool :=
  match l with
  | [] => false
  | d :: rest => existsb (fun o => key_eqb (key o) (key d)) rest || has_dup key rest
  end.

Inductive index_spec : Type := ByAgentId | ByPhoneNumber | ByActive.

(** [collection.createIndex(keys, options)]: building a unique index over
    documents that share a key fails; an index that exists is left alone. *)
Definition createIndex (ix : index_spec) : M unit :=
  command (fun w =>
    let w1 := set_index_builds (S (index_builds w)) w in
    match ix with
    | ByAgentId =>
        if unique_agentId w then (Ok tt, w1)
        else if has_dup agentId (agents_coll w)
        then (Throw (DuplicateKey "agentId_1"), w1)
        else (Ok tt, set_indexes true (unique_phoneNumber w) (index_active w) w1)
    | ByPhoneNumber =>
        if unique_phoneNumber w then (Ok tt, w1)
        else if has_dup phoneNumber (agents_coll w)
        then (Throw (DuplicateKey "phoneNumber_1"), w1)
        else (Ok tt, set_indexes (unique_agentId w) true (index_active w) w1)
    | ByActive =>
        (Ok tt, set_indexes (unique_agentId w) (unique_phoneNumber w) true w1)
    end).

(** [collection.findOne(filter)]: the first match in natural order. *)
Definition findOne (p : agent -> bool) : M (option agent) :=
  command (gets (fun w => find p (agents_coll w))).

(** [collection.find(filter).toArray()]. *)
Definition find_toArray (p : agent -> bool) : M (list agent) :=
  command (gets (fun w => filter p (agents_coll w))).

Definition countDocuments : M nat :=
  command (gets (fun w => length (agents_coll w))).

(** The collection split at the first document that matches. *)
Fixpoint split_first (p : agent -> bool) (l : list agent)
  : option (list agent * agent * list agent) :=
  match l with
  | [] => None
  | d :: rest =>
      if p d then Some ([], d, rest)
      else match split_first p rest with
           | Some (before, m, after) => Some (d :: before, m, after)
           | None => None
           end
  end.

Record delete_result : Type := { deletedCount : nat }.

(** [collection.deleteOne(filter)]. *)
Definition deleteOne (p : agent -> bool) : M delete_result :=
  command (fun w =>
    match split_first p (agents_coll w) with
    | Some (before, _, after) =>
        (Ok {| deletedCount := 1 |}, set_agents (before ++ after) w)
    | None => (Ok {| deletedCount := 0 |}, w)
    end).

(** The unique index a document would break next to [others], if any. *)
Definition violates (w : world) (others : list agent) (d : agent) : option string :=
  if unique_agentId w && existsb (fun o => key_eqb (agentId o) (agentId d)) others
  then Some "agentId_1"
  else if unique_phoneNumber w
          && existsb (fun o => key_eqb (phoneNumber o) (phoneNumber d)) others
  then Some "phoneNumber_1"
  else None.

(** The fields of [UpdateResult] the sources read. *)
Record update_result : Type := {
  matchedCount : nat;
  upsertedCount : nat
}.

(** The document an upsert starts from: the filter's [agentId] and a fresh
    [_id]; a field no operator sets would be absent (read as [null]). *)
Definition seed (oid : N) (aid : option string) : agent :=
  mk_agent oid aid None None VNull None VNull 0%Z 0%Z.

(** [collection.updateOne({ agentId }, { $set, $setOnInsert }, { upsert })].
    [set] is the effect of [$set] on a document; [on_insert] is [None]
    without [upsert: true], and otherwise the effect of [$setOnInsert]. *)
Definition updateOne (aid : option string) (set : agent -> agent)
    (on_insert : option (agent -> agent)) : M update_result :=
  command (fun w =>
    match split_first (fun d => key_eqb (agentId d) aid) (agents_coll w) with
    | Some (before, d, after) =>
        match violates w (before ++ after) (set d) with
        | Some ix => (Throw (DuplicateKey ix), w)
        | None =>
            (Ok {| matchedCount := 1; upsertedCount := 0 |},
             set_agents (before ++ set d :: after) w)
        end
    | None =>
        match on_insert with
        | None => (Ok {| matchedCount := 0; upsertedCount := 0 |}, w)
        | Some ins =>
            let d := ins (set (seed (next_oid w) aid)) in
            match violates w (agents_coll w) d with
            | Some ix => (Throw (DuplicateKey ix), w)
            | None =>
                (Ok {| matchedCount := 0; upsertedCount := 1 |},
                 set_next_oid (N.succ (next_oid w))
                   (set_agents (agents_coll w ++ [d]) w))
            end
        end
    end).

End Mongo.

(* ================================================================== *)
(** ** agent-database.js                                              *)
(* ================================================================== *)

(** [let client = null; let db = null;] are the [client] and [db] fields of
    the world.  A handle is the serial number of its connection. *)

(** [export async function connectDB()] *)
Definition connectDB : M nat :=
  d <- gets db ;;
  match d with
  | Some h => ret h
  | None =>
      try_catch
        (h <- gets connections ;;
         modify (set_client (Some h)) ;;;                  (* new MongoClient(uri) *)
         Mongo.command (modify (set_connections (S h))) ;;; (* await client.connect() *)
         modify (set_db (Some h)) ;;;                      (* db = client.db(dbName) *)
         Mongo.createIndex Mongo.ByAgentId ;;;
         Mongo.createIndex Mongo.ByPhoneNumber ;;;
         Mongo.createIndex Mongo.ByActive ;;;
         ret h)
        (fun error => throw error)
  end.

Definition not_initialized : js_error :=
  new_error "Error" "Database not initialized. Call connectDB() first.".

(** [export function getDB()] *)
Definition getDB : M nat :=
  d <- gets db ;;
  match d with
  | None => throw not_initialized
  | Some h => ret h
  end.

(** [export async function closeDB()] *)
Definition closeDB : M unit :=
  c <- gets client ;;
  match c with
  | Some _ =>
      modify (set_client None) ;;;
      modify (set_db None)
  | None => ret tt
  end.

(** The argument of [Agents.upsert]: the object literal both callers build. *)
Record agent_data : Type := mk_agent_data {
  data_agentId : option string;
  data_agentName : option string;
  data_phoneNumber : option string;
  data_agentPrompt : value;
  data_active : option bool;
  data_metadata : value
}.

(** [export const Agents = { ... }] *)
Module Agents.

(** [$set: { ...data, updatedAt: new Date() }] *)
Definition set_fields (data : agent_data) (now : Z) (d : agent) : agent :=
  mk_agent (_id d) (agentId d)
    (data_agentName data) (data_phoneNumber data)
    (Mongo.bson (data_agentPrompt data)) (data_active data)
    (Mongo.bson (data_metadata data))
    (createdAt d) now.

(** [$setOnInsert: { createdAt: new Date() }] *)
Definition set_createdAt (now : Z) (d : agent) : agent :=
  mk_agent (_id d) (agentId d) (agentName d) (phoneNumber d) (agentPrompt d)
    (active d) (metadata d) now (updatedAt d).

Definition upsert (agentData : agent_data) : M Mongo.update_result :=
  _ <- getDB ;;
  updated <- new_Date ;;
  created <- new_Date ;;
  Mongo.updateOne (data_agentId agentData)
    (set_fields agentData updated)
    (Some (set_createdAt created)).

Definition getByAgentId (id : option string) : M (option agent) :=
  _ <- getDB ;;
  Mongo.findOne (fun d => Mongo.key_eqb (agentId d) id).

Definition getByPhoneNumber (phone : option string) : M (option agent) :=
  _ <- getDB ;;
  Mongo.findOne (fun d => Mongo.key_eqb (phoneNumber d) phone).

Definition is_active (d : agent) : bool :=
  match active d with Some true => true | _ => false end.

Definition getAllActive : M (list agent) :=
  _ <- getDB ;;
  Mongo.find_toArray is_active.

(** The page [find().skip(skip).limit(limit)]; a limit of 0 is no limit. *)
Definition page (skip limit : nat) (l : list agent) : list agent :=
  match limit with
  | O => skipn skip l
  | _ => firstn limit (skipn skip l)
  end.

Record agents_page : Type := {
  page_agents : list agent;
  page_total : nat;
  page_skip : nat;
  page_limit : nat
}.

Definition getAll (skip limit : nat) : M agents_page :=
  _ <- getDB ;;
  total <- Mongo.countDocuments ;;
  agents <- Mongo.command (gets (fun w => page skip limit (agents_coll w))) ;;
  ret {| page_agents := agents; page_total := total;
         page_skip := skip; page_limit := limit |}.

Definition delete (id : option string) : M Mongo.delete_result :=
  _ <- getDB ;;
  Mongo.deleteOne (fun d => Mongo.key_eqb (agentId d) id).

(** [$set: { active, updatedAt: new Date() }] *)
Definition set_active (a : option bool) (now : Z) (d : agent) : agent :=
  mk_agent (_id d) (agentId d) (agentName d) (phoneNumber d) (agentPrompt d)
    a (metadata d) (createdAt d) now.

Definition toggleStatus (id : option string) (a : option bool)
  : M Mongo.update_result :=
  _ <- getDB ;;
  now <- new_Date ;;
  Mongo.updateOne id (set_active a now) None.

End Agents.

(** Stored fields as JavaScript values. *)
Definition of_key (k : option string) : value :=
  match k with Some s => VStr s | None => VNull end.

Definition of_flag (b : option bool) : value :=
  match b with Some x => VBool x | None => VNull end.

(** A document as the driver returns it. *)
Definition agent_value (a : agent) : value :=
  VObj [("_id", VObjectId (_id a));
        ("agentId", of_key (agentId a));
        ("agentName", of_key (agentName a));
        ("phoneNumber", of_key (phoneNumber a));
        ("agentPrompt", agentPrompt a);
        ("active", of_flag (active a));
        ("metadata", metadata a);
        ("createdAt", VDate (createdAt a));
        ("updatedAt", VDate (updatedAt a))].

(** [JSON.stringify(v)] as a request body: [undefined] gives no body. *)
Definition JSON_stringify (v : value) : option value :=
  match v with
  | VUndefined => None
  | _ => Some v
  end.

(** [{ success: false, error: msg }] *)
Definition failure (msg : string) : value :=
  VObj [("success", VBool false); ("error", VStr msg)].

(* ================================================================== *)
(** ** The Express application (HTTP facade)                          *)
(* ================================================================== *)

Module HttpBridge.
Section Routes.

(** [process.env.API_BASE_URL] *)
Variable env_API_BASE_URL : option string.

Definition API_BASE_URL : string :=
  if truthy_str env_API_BASE_URL
  then interp env_API_BASE_URL
  else "https://digital-api-tef8.onrender.com".

(** [res.status(500).json({ success: false, error: error.message })] *)
Definition server_error (error : js_error) : M http_response :=
  ret (mk_response 500 (failure (message error))).

Definition prompt_url (phoneNumber : option string) : string :=
  API_BASE_URL ++ "/api/prompts/by-phone/" ++ encodeURIComponent (interp phoneNumber).

(** The inner [try] of the prompt route: [Some r] when it returns the
    response [r], [None] when control falls through to the fallback. *)
Definition try_prompts (phoneNumber : option string) : M (option http_response) :=
  try_catch
    (promptResponse <- await_fetch (mk_request GET (prompt_url phoneNumber) None) ;;
     if response_ok (fst promptResponse) then
       promptData <- response_json (snd promptResponse) ;;
       success <- lift (get_prop promptData "success") ;;
       if truthy success then
         hospitalName <- lift (get_prop promptData "hospitalName") ;;
         systemPrompt <- lift (get_prop promptData "systemPrompt") ;;
         doctors <- lift (get_prop promptData "doctors") ;;
         features <- lift (get_prop promptData "features") ;;
         ret (Some (res_json (VObj [("success", VBool true);
                                    ("source", VStr "prompts");
                                    ("hospitalName", hospitalName);
                                    ("agentPrompt", systemPrompt);
                                    ("doctors", doctors);
                                    ("features", features)])))
       else ret None
     else ret None)
    (fun e => ret None).

Definition agent_payload (a : agent) : value :=
  VObj [("success", VBool true);
        ("source", VStr "agents");
        ("agentId", of_key (agentId a));
        ("agentName", of_key (agentName a));
        ("phoneNumber", of_key (phoneNumber a));
        ("agentPrompt", agentPrompt a);
        ("active", of_flag (active a))].

(** [app.post('/api/get-agent-prompt', ...)]; [phoneNumber] is
    [req.body.phoneNumber]. *)
Definition get_agent_prompt (phoneNumber : option string) : M http_response :=
  try_catch
    (if negb (truthy_str phoneNumber) then
       ret (mk_response 400 (failure "Phone number is required"))
     else
       early <- try_prompts phoneNumber ;;
       match early with
       | Some r => ret r
       | None =>
           found <- Agents.getByPhoneNumber phoneNumber ;;
           match found with
           | None =>
               ret (mk_response 404
                      (failure ("No agent found for phone number " ++ interp phoneNumber)))
           | Some a => ret (res_json (agent_payload a))
           end
       end)
    server_error.

Definition availability_url (params : URLSearchParams) : string :=
  API_BASE_URL ++ "/api/availability?" ++ params_toString params.

(** [app.get('/api/availability', ...)]; [query] is [req.query]. *)
Definition get_availability (query : list (string * query_value)) : M http_response :=
  try_catch
    (let params := URLSearchParams_of query in
     response <- await_fetch (mk_request GET (availability_url params) None) ;;
     data <- response_json (snd response) ;;
     ret (res_json data))
    server_error.

(** [app.post('/api/availability', ...)]; the five fields read from
    [req.body]. *)
Definition post_availability
    (assignedPhoneNumber date doctorName doctorId specialization : option string)
  : M http_response :=
  try_catch
    (let params :=
       append_if "specialization" specialization
         (append_if "doctorId" doctorId
            (append_if "doctorName" doctorName
               (append_if "date" date
                  (append_if "assignedPhoneNumber" assignedPhoneNumber [])))) in
     response <- await_fetch (mk_request GET (availability_url params) None) ;;
     data <- response_json (snd response) ;;
     _ <- lift (get_prop data "doctors") ;;           (* logged: data.doctors?.length *)
     ret (res_json data))
    server_error.

Definition doctors_url (assignedPhoneNumber : option string)
    (params : URLSearchParams) : string :=
  API_BASE_URL ++ "/api/doctors/by-phone/"
    ++ encodeURIComponent (interp assignedPhoneNumber) ++ "?" ++ params_toString params.

(** [app.get('/api/doctors', ...)] and [app.post('/api/doctors', ...)]
    differ in where the two fields come from and in the 400 message. *)
Definition doctors (missing_message : string)
    (assignedPhoneNumber specialization : option string) : M http_response :=
  try_catch
    (if negb (truthy_str assignedPhoneNumber) then
       ret (mk_response 400 (failure missing_message))
     else
       let params := append_if "specialization" specialization [] in
       response <- await_fetch
                     (mk_request GET (doctors_url assignedPhoneNumber params) None) ;;
       data <- response_json (snd response) ;;
       _ <- lift (get_prop data "doctors") ;;         (* logged: data.doctors?.length *)
       ret (res_json data))
    server_error.

Definition get_doctors : option string -> option string -> M http_response :=
  doctors "assignedPhoneNumber query parameter is required".

Definition post_doctors : option string -> option string -> M http_response :=
  doctors "assignedPhoneNumber is required. Use {{agent_number}} in your Millis config or provide directly.".

(** [app.post('/api/book-appointment', ...)]; [body] is [req.body]. *)
Definition book_appointment (body : value) : M http_response :=
  try_catch
    (_ <- lift (get_prop body "patientName") ;;       (* logged *)
     _ <- lift (get_prop body "patientPhone") ;;
     _ <- lift (get_prop body "date") ;;
     _ <- lift (get_prop body "time") ;;
     response <- await_fetch
                   (mk_request POST (API_BASE_URL ++ "/api/availability/book")
                      (JSON_stringify body)) ;;
     data <- response_json (snd response) ;;
     ret (mk_response (fst response) data))
    server_error.

(** [app.post('/api/cancel-appointment', ...)] *)
Definition cancel_appointment (body : value) : M http_response :=
  try_catch
    (response <- await_fetch
                   (mk_request POST (API_BASE_URL ++ "/api/availability/cancel")
                      (JSON_stringify body)) ;;
     data <- response_json (snd response) ;;
     ret (mk_response (fst response) data))
    server_error.

(** [app.post('/api/create-agent', ...)]; the six fields read from
    [req.body]. *)
Definition create_agent (agentId agentName phoneNumber : option string)
    (agentPrompt : value) (active : option bool) (metadata : value)
  : M http_response :=
  try_catch
    (if negb (truthy_str agentId) || negb (truthy_str agentName)
        || negb (truthy_str phoneNumber) || negb (truthy agentPrompt) then
       ret (mk_response 400
              (failure "agentId, agentName, phoneNumber, and agentPrompt are required"))
     else
       result <- Agents.upsert
                   (mk_agent_data agentId agentName phoneNumber agentPrompt
                      (match active with Some b => Some b | None => Some true end)
                      (or_else metadata (VObj []))) ;;
       ret (res_json
              (VObj [("success", VBool true);
                     ("message",
                      VStr (if (0 <? Mongo.upsertedCount result)%nat
                            then "Created" else "Updated"));
                     ("agentId", of_str agentId)])))
    server_error.

(** [a => ({ agentId, agentName, phoneNumber })] of the listing route. *)
Definition listing_entry (a : agent) : value :=
  VObj [("agentId", of_key (agentId a));
        ("agentName", of_key (agentName a));
        ("phoneNumber", of_key (phoneNumber a))].

(** [app.get('/api/agents', ...)] *)
Definition get_agents : M http_response :=
  try_catch
    (agents <- Agents.getAllActive ;;
     ret (res_json (VObj [("success", VBool true);
                          ("count", VNum (Z.of_nat (length agents)));
                          ("agents", VArr (map listing_entry agents))])))
    server_error.

End Routes.
End HttpBridge.

(* ================================================================== *)
(** ** The MCP server (tool facade)                                   *)
(* ================================================================== *)

(** [request.params.arguments]: one optional field per property of the
    tools' input schemas, of the declared type ([agentPrompt] and
    [metadata] are arbitrary values, [undefined] when absent). *)
Module Args.
Record t : Type := mk {
  agentId : option string;
  agentName : option string;
  phoneNumber : option string;
  agentPrompt : value;
  active : option bool;
  metadata : value;
  skip : option nat;
  limit : option nat;
  activeOnly : option bool;
  assignedPhoneNumber : option string;
  date : option string;
  specialization : option string;
  doctorName : option string;
  doctorId : option string;
  patientName : option string;
  patientPhone : option string;
  time : option string;
  purpose : option string;
  appointmentId : option string;
  includeCompleted : option bool
}.

(** The empty argument object [{}]. *)
Definition empty : t :=
  mk None None None VUndefined None VUndefined None None None
     None None None None None None None None None None None.
End Args.

Module McpServer.
Section Tools.

(** [process.env.API_BASE_URL] *)
Variable env_API_BASE_URL : option string.

Definition API_BASE_URL : string :=
  if truthy_str env_API_BASE_URL
  then interp env_API_BASE_URL
  else "http://localhost:4000".

(** Reading [args.k]: a [TypeError] when the request carries no
    [arguments]. *)
Definition the_args (args : option Args.t) (k : string) : M Args.t :=
  match args with
  | Some a => ret a
  | None =>
      throw (TypeError ("Cannot read properties of undefined (reading '" ++ k ++ "')"))
  end.

Definition flag (b : option bool) : bool :=
  match b with Some true => true | _ => false end.

(** [args.n || d] for an optional number. *)
Definition num_or (n : option nat) (d : nat) : nat :=
  match n with
  | Some O | None => d
  | Some k => k
  end.

(** [['scheduled', 'confirmed'].includes(v)] *)
Definition open_status (v : value) : bool :=
  match v with
  | VStr s => (s =? "scheduled") || (s =? "confirmed")
  | _ => false
  end.

(** [appointments.filter(apt => ['scheduled', 'confirmed'].includes(apt.status))]
    on the elements of an array. *)
Fixpoint filter_open (l : list value) : outcome (list value) :=
  match l with
  | [] => Ok []
  | apt :: rest =>
      match get_prop apt "status" with
      | Throw e => Throw e
      | Ok st =>
          match filter_open rest with
          | Throw e => Throw e
          | Ok kept => Ok (if open_status st then apt :: kept else kept)
          end
      end
  end.

(** The object literal built for one appointment. *)
Definition summary (apt : value) : outcome value :=
  match get_prop apt "_id" with
  | Throw e => Throw e
  | Ok id =>
      match get_prop_opt (prop_or_undefined apt "metadata") "doctor_name" with
      | Throw e => Throw e
      | Ok doctor =>
          Ok (VObj [("id", id);
                    ("date", prop_or_undefined apt "date");
                    ("time", prop_or_undefined apt "time");
                    ("doctorName", doctor);
                    ("status", prop_or_undefined apt "status");
                    ("purpose", prop_or_undefined apt "purpose")])
      end
  end.

(** [appointments.map(apt => ({ ... }))] on the elements of an array. *)
Fixpoint map_summary (l : list value) : outcome (list value) :=
  match l with
  | [] => Ok []
  | apt :: rest =>
      match summary apt with
      | Throw e => Throw e
      | Ok s =>
          match map_summary rest with
          | Throw e => Throw e
          | Ok ss => Ok (s :: ss)
          end
      end
  end.

(** The receiver of [.filter] / [.map]: anything but an array has no such
    method. *)
Definition as_array (v : value) (method : string) : outcome (list value) :=
  match v with
  | VArr items => Ok items
  | _ => Throw (TypeError ("appointments." ++ method ++ " is not a function"))
  end.

Definition appointments_url (cleanPhone : string) : string :=
  API_BASE_URL ++ "/api/appointments?phone=" ++ cleanPhone.

(** [case 'find_patient_appointments'] *)
Definition find_patient_appointments (args : option Args.t) : M value :=
  try_catch
    (a <- the_args args "patientPhone" ;;
     match Args.patientPhone a with
     | None =>
         throw (TypeError "Cannot read properties of undefined (reading 'replace')")
     | Some patientPhone =>
         let cleanPhone := strip_non_digits patientPhone in
         response <- await_fetch (mk_request GET (appointments_url cleanPhone) None) ;;
         data <- response_json (snd response) ;;
         listed <- lift (get_prop data "appointments") ;;
         let appointments := or_else listed (VArr []) in
         appointments <-
           (if negb (flag (Args.includeCompleted a)) then
              items <- lift (as_array appointments "filter") ;;
              kept <- lift (filter_open items) ;;
              ret (VArr kept)
            else ret appointments) ;;
         items <- lift (as_array appointments "map") ;;
         mapped <- lift (map_summary items) ;;
         ret (VObj [("success", VBool true);
                    ("patientPhone", VStr patientPhone);
                    ("count", VNum (Z.of_nat (length items)));
                    ("appointments", VArr mapped)])
     end)
    (fun error => ret (failure ("Failed to find appointments: " ++ message error))).

(** [case 'create_agent'] *)
Definition create_agent (args : option Args.t) : M value :=
  a <- the_args args "agentId" ;;
  result <- Agents.upsert
              (mk_agent_data (Args.agentId a) (Args.agentName a) (Args.phoneNumber a)
                 (Args.agentPrompt a)
                 (match Args.active a with Some b => Some b | None => Some true end)
                 (or_else (Args.metadata a) (VObj []))) ;;
  ret (VObj [("success", VBool true);
             ("message",
              VStr (if (0 <? Mongo.upsertedCount result)%nat
                    then "Agent " ++ interp (Args.agentId a) ++ " created successfully"
                    else "Agent " ++ interp (Args.agentId a) ++ " updated successfully"));
             ("agentId", of_str (Args.agentId a));
             ("phoneNumber", of_str (Args.phoneNumber a))]).

(** [case 'get_agent_by_phone'] *)
Definition get_agent_by_phone (args : option Args.t) : M value :=
  a <- the_args args "phoneNumber" ;;
  found <- Agents.getByPhoneNumber (Args.phoneNumber a) ;;
  match found with
  | None =>
      ret (failure ("No agent found for phone number " ++ interp (Args.phoneNumber a)))
  | Some agent =>
      ret (VObj [("success", VBool true);
                 ("agent", agent_value agent);
                 ("prompt", agentPrompt agent)])
  end.

(** [case 'list_agents'] *)
Definition list_agents (args : option Args.t) : M value :=
  a <- the_args args "activeOnly" ;;
  if flag (Args.activeOnly a) then
    agents <- Agents.getAllActive ;;
    ret (VObj [("success", VBool true);
               ("agents", VArr (map agent_value agents));
               ("total", VNull)])
  else
    result <- Agents.getAll (num_or (Args.skip a) 0) (num_or (Args.limit a) 50) ;;
    ret (VObj [("success", VBool true);
               ("agents", VArr (map agent_value (Agents.page_agents result)));
               ("total", VNum (Z.of_nat (Agents.page_total result)));
               ("skip", VNum (Z.of_nat (Agents.page_skip result)));
               ("limit", VNum (Z.of_nat (Agents.page_limit result)))]).

(** [case 'delete_agent'] *)
Definition delete_agent (args : option Args.t) : M value :=
  a <- the_args args "agentId" ;;
  result <- Agents.delete (Args.agentId a) ;;
  ret (VObj [("success", VBool (0 <? Mongo.deletedCount result)%nat);
             ("message",
              VStr (if (0 <? Mongo.deletedCount result)%nat
                    then "Agent " ++ interp (Args.agentId a) ++ " deleted"
                    else "Agent " ++ interp (Args.agentId a) ++ " not found"))]).

(** [case 'toggle_agent_status'] *)
Definition toggle_agent_status (args : option Args.t) : M value :=
  a <- the_args args "agentId" ;;
  result <- Agents.toggleStatus (Args.agentId a) (Args.active a) ;;
  ret (VObj [("success", VBool (0 <? Mongo.matchedCount result)%nat);
             ("message",
              VStr ("Agent " ++ interp (Args.agentId a) ++ " "
                    ++ (if flag (Args.active a) then "activated" else "deactivated")))]).

(** The shape shared by the five proxy tools: build one request, return
    the parsed upstream body, turn any error into a failure payload. *)
Definition proxy (wanted : string) (build : Args.t -> request) (failed : string)
    (args : option Args.t) : M value :=
  try_catch
    (a <- the_args args wanted ;;
     response <- await_fetch (build a) ;;
     response_json (snd response))
    (fun error => ret (failure (failed ++ message error))).

(** [case 'get_prompt_by_phone'] *)
Definition get_prompt_by_phone : option Args.t -> M value :=
  proxy "assignedPhoneNumber"
    (fun a => mk_request GET
                (API_BASE_URL ++ "/api/prompts/by-phone/"
                   ++ encodeURIComponent (interp (Args.assignedPhoneNumber a))) None)
    "Failed to fetch prompt: ".

(** [case 'check_doctor_availability'] *)
Definition availability_params (a : Args.t) : URLSearchParams :=
  append_if "doctorName" (Args.doctorName a)
    (append_if "doctorId" (Args.doctorId a)
       (append_if "specialization" (Args.specialization a)
          (append_if "date" (Args.date a)
             [("assignedPhoneNumber", interp (Args.assignedPhoneNumber a))]))).

Definition check_doctor_availability : option Args.t -> M value :=
  proxy "assignedPhoneNumber"
    (fun a => mk_request GET
                (API_BASE_URL ++ "/api/availability?"
                   ++ params_toString (availability_params a)) None)
    "Failed to check availability: ".

(** [case 'get_doctors'] *)
Definition get_doctors : option Args.t -> M value :=
  proxy "specialization"
    (fun a => mk_request GET
                (API_BASE_URL ++ "/api/doctors/by-phone/"
                   ++ encodeURIComponent (interp (Args.assignedPhoneNumber a)) ++ "?"
                   ++ params_toString (append_if "specialization" (Args.specialization a) []))
                None)
    "Failed to fetch doctors: ".

(** [if (args.k) bookingData.k = args.k] *)
Definition add_if (k : string) (v : option string) (props : list (string * value))
  : list (string * value) :=
  if truthy_str v then props ++ [(k, of_str v)] else props.

Definition bookingData (a : Args.t) : value :=
  VObj (add_if "doctorName" (Args.doctorName a)
          (add_if "doctorId" (Args.doctorId a)
             [("assignedPhoneNumber", of_str (Args.assignedPhoneNumber a));
              ("patientName", of_str (Args.patientName a));
              ("patientPhone", of_str (Args.patientPhone a));
              ("date", of_str (Args.date a));
              ("time", of_str (Args.time a));
              ("purpose",
               VStr (if truthy_str (Args.purpose a)
                     then interp (Args.purpose a) else "General appointment"))])).

(** [case 'book_appointment'] *)
Definition book_appointment : option Args.t -> M value :=
  proxy "assignedPhoneNumber"
    (fun a => mk_request POST (API_BASE_URL ++ "/api/availability/book")
                (JSON_stringify (bookingData a)))
    "Failed to book appointment: ".

(** [case 'cancel_appointment'] *)
Definition cancel_appointment : option Args.t -> M value :=
  proxy "appointmentId"
    (fun a => mk_request POST (API_BASE_URL ++ "/api/availability/cancel")
                (JSON_stringify (VObj [("appointmentId", of_str (Args.appointmentId a));
                                       ("patientPhone", of_str (Args.patientPhone a))])))
    "Failed to cancel appointment: ".

(** The [ListToolsRequestSchema] handler: the static catalog, each tool
    with the properties of its input schema (name and declared type) and
    its [required] list; descriptions and defaults are left out. *)
Inductive json_type : Type := TString | TBoolean | TNumber | TObject.

Record tool : Type := mk_tool {
  tool_name : string;
  tool_properties : list (string * json_type);
  tool_required : list string
}.

Definition tools : list tool :=
  [mk_tool "create_agent"
     [("agentId", TString); ("agentName", TString); ("phoneNumber", TString);
      ("agentPrompt", TString); ("active", TBoolean); ("metadata", TObject)]
     ["agentId"; "agentName"; "phoneNumber"; "agentPrompt"];
   mk_tool "get_agent_by_phone" [("phoneNumber", TString)] ["phoneNumber"];
   mk_tool "list_agents"
     [("skip", TNumber); ("limit", TNumber); ("activeOnly", TBoolean)] [];
   mk_tool "delete_agent" [("agentId", TString)] ["agentId"];
   mk_tool "toggle_agent_status"
     [("agentId", TString); ("active", TBoolean)] ["agentId"; "active"];
   mk_tool "get_prompt_by_phone"
     [("assignedPhoneNumber", TString)] ["assignedPhoneNumber"];
   mk_tool "check_doctor_availability"
     [("assignedPhoneNumber", TString); ("date", TString); ("specialization", TString);
      ("doctorName", TString); ("doctorId", TString)]
     ["assignedPhoneNumber"];
   mk_tool "get_doctors"
     [("assignedPhoneNumber", TString); ("specialization", TString)]
     ["assignedPhoneNumber"];
   mk_tool "book_appointment"
     [("assignedPhoneNumber", TString); ("doctorId", TString); ("doctorName", TString);
      ("patientName", TString); ("patientPhone", TString); ("date", TString);
      ("time", TString); ("purpose", TString)]
     ["assignedPhoneNumber"; "patientName"; "patientPhone"; "date"; "time"];
   mk_tool "cancel_appointment"
     [("appointmentId", TString); ("patientPhone", TString)] [];
   mk_tool "find_patient_appointments"
     [("patientPhone", TString); ("includeCompleted", TBoolean)] ["patientPhone"]].

(** The [CallToolRequestSchema] handler: [name] and [args] are
    [request.params.name] and [request.params.arguments]; the result is
    the value serialised into the single text item of the reply. *)
Definition CallTool (name : string) (args : option Args.t) : M value :=
  try_catch
    (if name =? "create_agent" then create_agent args
     else if name =? "get_agent_by_phone" then get_agent_by_phone args
     else if name =? "list_agents" then list_agents args
     else if name =? "delete_agent" then delete_agent args
     else if name =? "toggle_agent_status" then toggle_agent_status args
     else if name =? "get_prompt_by_phone" then get_prompt_by_phone args
     else if name =? "check_doctor_availability" then check_doctor_availability args
     else if name =? "get_doctors" then get_doctors args
     else if name =? "book_appointment" then book_appointment args
     else if name =? "cancel_appointment" then cancel_appointment args
     else if name =? "find_patient_appointments" then find_patient_appointments args
     else ret (failure ("Unknown tool: " ++ name)))
    (fun error =>
       ret (VObj [("success", VBool false);
                  ("error", VStr (message error));
                  ("stack", VStr (stack error))])).

End Tools.
End McpServer.

(* ================================================================== *)
(** ** Specification-side notions and sample worlds                   *)
(* ================================================================== *)

(** The store answers: a handle is set and the deployment is reachable. *)
Definition store_ready (w : world) : bool :=
  match db w with
  | Some _ => mongo_up w
  | None => false
  end.

(** The world after one more outbound request. *)
Definition sent (r : request) (w : world) : world :=
  set_outbox (outbox w ++ [r]) w.

(** "The upstream lookup succeeds with a positive result flag": a 2xx
    response whose JSON body has a truthy [success]. *)
Definition positive_prompt (o : fetch_outcome) : option value :=
  match o with
  | Responded st (Some data) =>
      if response_ok st then
        match get_prop data "success" with
        | Ok flag => if truthy flag then Some data else None
        | Throw _ => None
        end
      else None
  | _ => None
  end.

(** The [source] tag of a reply, if it carries one. *)
Definition source_tag (r : outcome http_response) : option string :=
  match r with
  | Ok resp =>
      match body resp with
      | VObj props =>
          match assoc "source" props with
          | Some (VStr tag) => Some tag
          | _ => None
          end
      | _ => None
      end
  | Throw _ => None
  end.

(** What the listing route shows of a record. *)
Definition public_view (a : agent) : option string * option string * option string :=
  (agentId a, agentName a, phoneNumber a).

(** The [status] of every element of a list of appointment summaries is
    one of the two open ones. *)
Definition all_open (items : list value) : Prop :=
  forall apt, In apt items ->
    prop_or_undefined apt "status" = VStr "scheduled"
    \/ prop_or_undefined apt "status" = VStr "confirmed".

(** A backend nobody can reach. *)
Definition unreachable : request -> fetch_outcome :=
  fun _ => NetworkError "fetch failed".

(** A backend that answers every request with [status] and [data]. *)
Definition answering (status : Z) (data : value) : request -> fetch_outcome :=
  fun _ => Responded status (Some data).

(** Before [connectDB]: an empty, reachable deployment. *)
Definition boot (backend : request -> fetch_outcome) : world :=
  mk_world None None true 0 0 false false false [] 1%N 1000%Z backend [].

Definition sales : agent_data :=
  mk_agent_data (Some "AGENT001") (Some "Sales Assistant Bot") (Some "+12025551234")
    (VStr "You are a sales assistant.") (Some true) (VObj []).

Definition support : agent_data :=
  mk_agent_data (Some "AGENT002") (Some "Customer Support Bot") (Some "+12025555678")
    (VStr "You are a support assistant.") (Some false) (VObj []).

(** The world after [m] has run in [w]. *)
Definition after {A : Type} (m : M A) (w : world) : world := snd (m w).

(** Connected to an empty store: the world [connectDB] leaves behind when
    it is run in [boot backend]. *)
Definition connected (backend : request -> fetch_outcome) : world :=
  mk_world (Some 0) (Some 0) true 1 3 true true true [] 1%N 1000%Z backend [].

Definition sales_record : agent :=
  mk_agent 1 (Some "AGENT001") (Some "Sales Assistant Bot") (Some "+12025551234")
    (VStr "You are a sales assistant.") (Some true) (VObj []) 1000 1000.

Definition support_record : agent :=
  mk_agent 2 (Some "AGENT002") (Some "Customer Support Bot") (Some "+12025555678")
    (VStr "You are a support assistant.") (Some false) (VObj []) 1000 1000.

(** Connected, holding the two sample agents (the second one inactive):
    the world after [connectDB] and the two upserts. *)
Definition seeded (backend : request -> fetch_outcome) : world :=
  mk_world (Some 0) (Some 0) true 1 3 true true true
    [sales_record; support_record] 3%N 1000%Z backend [].

(** A deployment whose collection was filled before any index existed and
    holds two records with one phone number. *)
Definition clashing : world :=
  mk_world None None true 0 0 false false false
    [mk_agent 1 (Some "AGENT001") (Some "Sales Assistant Bot") (Some "+12025551234")
       (VStr "sales") (Some true) (VObj []) 10 10;
     mk_agent 2 (Some "AGENT009") (Some "Old Sales Bot") (Some "+12025551234")
       (VStr "old") (Some true) (VObj []) 20 20]
    3%N 1000%Z unreachable [].

(** The reply built from a positive upstream answer [data]. *)
Definition prompts_payload (data : value) : value :=
  VObj [("success", VBool true);
        ("source", VStr "prompts");
        ("hospitalName", prop_or_undefined data "hospitalName");
        ("agentPrompt", prop_or_undefined data "systemPrompt");
        ("doctors", prop_or_undefined data "doctors");
        ("features", prop_or_undefined data "features")].

(** The reply of the prompt route once the upstream lookup has not
    produced a prompt, from the outcome of the local phone lookup. *)
Definition local_reply (p : string) (found : outcome (option agent)) : http_response :=
  match found with
  | Ok (Some a) => res_json (HttpBridge.agent_payload a)
  | Ok None => mk_response 404 (failure ("No agent found for phone number " ++ p))
  | Throw e => mk_response 500 (failure (message e))
  end.


(** Whether the store can be asked, and how it would fail. *)
Definition reachability (w : world) : bool * bool :=
  (match db w with Some _ => true | None => false end, mongo_up w).


(** The sample store with every secret changed: other prompts, metadata and
    timestamps, and a different inactive record. *)
Definition reseeded : world :=
  mk_world (Some 0) (Some 0) true 1 3 true true true
    [mk_agent 7 (Some "AGENT777") (Some "Hidden Bot") (Some "+10000000000")
       (VStr "never shown") (Some false) (VObj [("owner", VStr "ops")]) 5 6;
     mk_agent 8 (Some "AGENT001") (Some "Sales Assistant Bot") (Some "+12025551234")
       (VObj [("role", VStr "a different prompt")]) (Some true)
       (VObj [("department", VStr "Sales")]) 77 88]
    9%N 2000%Z (answering 200 VNull) [].

(** Tool arguments of the appointment search, phone as a caller types it. *)
Definition patient : Args.t :=
  Args.mk None None None VUndefined None VUndefined None None None
    None None None None None None (Some "(202) 555-1234") None None None None.

Definition appointment (id status : string) : value :=
  VObj [("_id", VStr id); ("date", VStr "2025-01-15"); ("time", VStr "14:00");
        ("status", VStr status); ("purpose", VStr "Checkup");
        ("metadata", VObj [("doctor_name", VStr "Dr. Smith")])].

(** A backend that knows three appointments, one of them completed. *)
Definition clinic : request -> fetch_outcome :=
  answering 200
    (VObj [("appointments",
            VArr [appointment "a1" "scheduled";
                  appointment "a2" "completed";
                  appointment "a3" "confirmed"])]).

Definition is_object (v : value) : Prop := exists props, v = VObj props.

(** No record of the store has this [agentId]. *)
Definition absent (id : option string) (w : world) : Prop :=
  forall d, In d (agents_coll w) -> agentId d <> id.

(** "upsert inserts the record with [createdAt] set". *)
Definition upsert_inserts (data : agent_data) (w : world) : Prop :=
  exists d,
    In d (agents_coll (after (Agents.upsert data) w))
    /\ agentId d = data_agentId data
    /\ createdAt d = clock w.

(** "upsert refreshes [updatedAt]" of the record with the data's [agentId]. *)
Definition upsert_refreshes (data : agent_data) (w : world) : Prop :=
  forall d,
    In d (agents_coll (after (Agents.upsert data) w)) ->
    agentId d = data_agentId data ->
    updatedAt d = clock w.

(** The record [d] carries what [data] says, stamped at time [now]. *)
Definition written (data : agent_data) (now : Z) (d : agent) : Prop :=
  agentId d = data_agentId data
  /\ agentName d = data_agentName data
  /\ phoneNumber d = data_phoneNumber data
  /\ agentPrompt d = Mongo.bson (data_agentPrompt data)
  /\ active d = data_active data
  /\ metadata d = Mongo.bson (data_metadata data)
  /\ updatedAt d = now.

(** The identity and the creation time of the records, in store order. *)
Definition creation_stamps (l : list agent) : list (N * option string * Z) :=
  map (fun d => (_id d, agentId d, createdAt d)) l.

(** No record of [others] shares the [agentId] or the [phoneNumber] of [data]. *)
Definition keys_free (data : agent_data) (others : list agent) : Prop :=
  forall o, In o others ->
    agentId o <> data_agentId data /\ phoneNumber o <> data_phoneNumber data.

(** A new agent that claims the phone number of the first sample agent. *)
Definition intruder : agent_data :=
  mk_agent_data (Some "AGENT003") (Some "Second Sales Bot") (Some "+12025551234")
    (VStr "You are another sales assistant.") (Some true) (VObj []).

(** The second sample agent, moved to the phone number of the first. *)
Definition moved : agent_data :=
  mk_agent_data (Some "AGENT002") (Some "Customer Support Bot") (Some "+12025551234")
    (VStr "You are a support assistant.") (Some true) (VObj []).

(** A new agent with a phone number of its own. *)
Definition scheduler : agent_data :=
  mk_agent_data (Some "AGENT003") (Some "Appointment Scheduler") (Some "+12025559012")
    (VStr "You schedule appointments.") (Some true) (VObj []).

(** Tool arguments for [create_agent] with [agentPrompt] left out. *)
Definition promptless : Args.t :=
  Args.mk (Some "AGENT005") (Some "Tech Support Bot") (Some "+12025557890")
    VUndefined None VUndefined None None None
    None None None None None None None None None None None.


(** The truthy ones among named optional fields, in the order given. *)
Definition chosen (fields : list (string * option string)) : URLSearchParams :=
  flat_map (fun kv => if truthy_str (snd kv) then [(fst kv, interp (snd kv))] else [])
    fields.


(** A booking as the voice agent posts it. *)
Definition booking : value :=
  VObj [("assignedPhoneNumber", VStr "+12025551234");
        ("patientName", VStr "Ada Lovelace");
        ("patientPhone", VStr "2025550100");
        ("date", VStr "2025-01-15");
        ("time", VStr "14:00");
        ("note", VObj [("wheelchair", VBool true)])].

(** The upstream lookup of the prompt route for the phone number [p]. *)
Definition prompt_request (env : option string) (p : string) : request :=
  mk_request GET (HttpBridge.prompt_url env (Some p)) None.

(** The upstream query of the appointment search for [phone]. *)
Definition appointments_query (env : option string) (phone : string) : request :=
  mk_request GET
    (McpServer.API_BASE_URL env ++ "/api/appointments?phone=" ++ strip_non_digits phone)
    None.

(** The world after an appointment search: one more request when a phone
    number was given, and no change otherwise. *)
Definition searched (env : option string) (args : option Args.t) (w : world) : world :=
  match args with
  | Some a =>
      match Args.patientPhone a with
      | Some phone => sent (appointments_query env phone) w
      | None => w
      end
  | None => w
  end.





(** Tool arguments naming an agent nobody stored. *)
Definition gone : Args.t :=
  Args.mk (Some "AGENT404") None None VUndefined None VUndefined None None None
    None None None None None None None None None None None.

(** [clashing] after a [connectDB] call that got as far as the second
    index. *)
Definition half_open : world :=
  mk_world (Some 0) (Some 0) true 1 2 true false false
    (agents_coll clashing) 3%N 1000%Z unreachable [].

(** The two unique indexes exist and the collection respects them. *)
Definition well_keyed (w : world) : Prop :=
  unique_agentId w = true
  /\ unique_phoneNumber w = true
  /\ Mongo.has_dup agentId (agents_coll w) = false
  /\ Mongo.has_dup phoneNumber (agents_coll w) = false.

(** The deployment goes down or comes back. *)
Definition set_mongo_up (up : bool) (w : world) : world :=
  mk_world (client w) (db w) up (connections w) (index_builds w)
    (unique_agentId w) (unique_phoneNumber w) (index_active w)
    (agents_coll w) (next_oid w) (clock w) (upstream w) (outbox w).

(** The world a successful first [connectDB] leaves behind. *)
Definition opened (w : world) : world :=
  mk_world (Some (connections w)) (Some (connections w)) (mongo_up w)
    (S (connections w)) (3 + index_builds w) true true true
    (agents_coll w) (next_oid w) (clock w) (upstream w) (outbox w).

(** The error a repository operation throws when the store cannot be
    asked: no handle, or a handle to a deployment that is down. *)
Definition store_error (w : world) : js_error :=
  match db w with
  | None => not_initialized
  | Some _ => Mongo.MongoNetworkError
  end.


(** Tool arguments of [list_agents] asking for the second page of one. *)
Definition second_page : Args.t :=
  Args.mk None None None VUndefined None VUndefined (Some 1) (Some 1) None
    None None None None None None None None None None None.





(** The number of occurrences of a character in a string. *)
Fixpoint count_char (c : ascii) (s : string) : nat :=
  match s with
  | EmptyString => 0
  | String d rest => (if Ascii.eqb c d then 1 else 0) + count_char c rest
  end.

(** The value of a hexadecimal digit. *)
Definition unhex (c : ascii) : nat :=
  let n := nat_of_ascii c in
  (if n <? 58 then n - 48 else n - 55)%nat.

(** The byte a percent escape stands for. *)
Definition unescape (s : string) : ascii :=
  match s with
  | String _ (String h1 (String h2 _)) => ascii_of_nat (16 * unhex h1 + unhex h2)
  | _ => Ascii.zero
  end.

(** The characters [encodeURIComponent] can put out. *)
Definition uri_output (c : ascii) : bool := uri_unreserved c || Ascii.eqb c "%".

(** The characters the form serialisation of one name or value can put out. *)
Definition form_output (c : ascii) : bool :=
  form_safe c || Ascii.eqb c "+" || Ascii.eqb c "%".



(** Everything in the world but the trace of outbound requests: the
    connection state, the deployment and the clock. *)
Definition store_part (w : world) :=
  (client w, db w, mongo_up w, connections w, index_builds w,
   (unique_agentId w, unique_phoneNumber w, index_active w),
   agents_coll w, next_oid w, clock w).

(** A computation that leaves everything but the trace of requests alone. *)
Definition reads_only {A : Type} (m : M A) : Prop :=
  forall w, store_part (snd (m w)) = store_part w.

(** The tools that write to the store. *)
Definition writing_tools : list string :=
  ["create_agent"; "delete_agent"; "toggle_agent_status"].

(* ================================================================== *)
(** ** Facts about the monad and the driver                           *)
(* ================================================================== *)

Example strip_phone : strip_non_digits "(202) 555-1234" = "2025551234".
Proof. reflexivity. Qed.

Example encode_phone : encodeURIComponent "+1 202" = "%2B1%20202".
Proof. reflexivity. Qed.

Example connected_by_run (backend : request -> fetch_outcome) :
  connectDB (boot backend) = (Ok 0, connected backend).
Proof. reflexivity. Qed.

Example seeded_by_run (backend : request -> fetch_outcome) :
  after (Agents.upsert support) (after (Agents.upsert sales) (connected backend))
  = seeded backend.
Proof. reflexivity. Qed.

Example half_open_by_run :
  connectDB clashing = (Throw (Mongo.DuplicateKey "phoneNumber_1"), half_open).
Proof. reflexivity. Qed.

Example seeded_ready : store_ready (seeded unreachable) = true.
Proof. reflexivity. Qed.

Example seeded_ids :
  map agentId (agents_coll (seeded unreachable)) = [Some "AGENT001"; Some "AGENT002"].
Proof. reflexivity. Qed.

Lemma store_ready_db (w : world) :
  store_ready w = true -> exists h, db w = Some h /\ mongo_up w = true.
Proof.
  unfold store_ready. destruct (db w) as [h|]; [|discriminate].
  intros Hup. exists h. split; [reflexivity | exact Hup].
Qed.

Lemma getDB_ready (w : world) (h : nat) : db w = Some h -> getDB w = (Ok h, w).
Proof. intros Hdb. unfold getDB, bind, gets. rewrite Hdb. reflexivity. Qed.

Lemma getDB_unset (w : world) : db w = None -> getDB w = (Throw not_initialized, w).
Proof. intros Hdb. unfold getDB, bind, gets. rewrite Hdb. reflexivity. Qed.

Lemma command_up {A : Type} (m : M A) (w : world) :
  mongo_up w = true -> Mongo.command m w = m w.
Proof. intros Hup. unfold Mongo.command. rewrite Hup. reflexivity. Qed.

Lemma command_down {A : Type} (m : M A) (w : world) :
  mongo_up w = false -> Mongo.command m w = (Throw Mongo.MongoNetworkError, w).
Proof. intros Hup. unfold Mongo.command. rewrite Hup. reflexivity. Qed.

(** A read of the store, run in any state, leaves the world as it was. *)
Lemma findOne_pure (p : agent -> bool) (w : world) :
  snd (Mongo.findOne p w) = w.
Proof. unfold Mongo.findOne, Mongo.command, gets. destruct (mongo_up w); reflexivity. Qed.

Lemma getByPhoneNumber_pure (phone : option string) (w : world) :
  snd (Agents.getByPhoneNumber phone w) = w.
Proof.
  unfold Agents.getByPhoneNumber, getDB, bind, gets, ret, throw. cbn.
  destruct (db w); cbn; [apply findOne_pure | reflexivity].
Qed.

Lemma getByPhoneNumber_ready (phone : option string) (w : world) :
  store_ready w = true ->
  Agents.getByPhoneNumber phone w
  = (Ok (find (fun d => Mongo.key_eqb (phoneNumber d) phone) (agents_coll w)), w).
Proof.
  intros Hr. destruct (store_ready_db w Hr) as [h [Hdb Hup]].
  unfold Agents.getByPhoneNumber, bind. rewrite (getDB_ready w h Hdb).
  unfold Mongo.findOne. rewrite command_up by exact Hup. reflexivity.
Qed.

Lemma getAllActive_ready (w : world) :
  store_ready w = true ->
  Agents.getAllActive w = (Ok (filter Agents.is_active (agents_coll w)), w).
Proof.
  intros Hr. destruct (store_ready_db w Hr) as [h [Hdb Hup]].
  unfold Agents.getAllActive, bind. rewrite (getDB_ready w h Hdb).
  unfold Mongo.find_toArray. rewrite command_up by exact Hup. reflexivity.
Qed.

Lemma is_active_true (d : agent) : Agents.is_active d = true <-> active d = Some true.
Proof.
  unfold Agents.is_active. destruct (active d) as [[|]|]; split; congruence.
Qed.

(** C8. In every store state that answers, [getAllActive()] returns a list
    whose members are exactly the records of the collection with
    [active == true]; in particular it never returns a record whose
    [active] is false. *)
Theorem getAllActive_exactly_active (w : world) :
  store_ready w = true ->
  exists l,
    Agents.getAllActive w = (Ok l, w)
    /\ (forall d, In d l <-> In d (agents_coll w) /\ active d = Some true)
    /\ (forall d, In d l -> active d <> Some false).
Proof.
  intros Hr. exists (filter Agents.is_active (agents_coll w)).
  split; [apply getAllActive_ready; exact Hr|].
  assert (Hiff : forall d, In d (filter Agents.is_active (agents_coll w))
                           <-> In d (agents_coll w) /\ active d = Some true).
  { intros d. rewrite filter_In, is_active_true. reflexivity. }
  split; [exact Hiff|].
  intros d Hin Hfalse. apply Hiff in Hin. destruct Hin as [_ Hact]. congruence.
Qed.

Lemma getAllActive_exactly_active_witness :
  store_ready (seeded unreachable) = true
  /\ exists l,
       Agents.getAllActive (seeded unreachable) = (Ok l, seeded unreachable)
       /\ (forall d, In d l <-> In d (agents_coll (seeded unreachable))
                                /\ active d = Some true)
       /\ (forall d, In d l -> active d <> Some false).
Proof.
  split; [reflexivity|].
  apply (getAllActive_exactly_active (seeded unreachable)). reflexivity.
Defined.

Lemma key_eqb_eq (a b : option string) : Mongo.key_eqb a b = true <-> a = b.
Proof.
  destruct a as [x|], b as [y|]; cbn; try (split; congruence).
  rewrite String.eqb_eq. split; congruence.
Qed.

Lemma key_eqb_neq (a b : option string) : Mongo.key_eqb a b = false <-> a <> b.
Proof.
  rewrite <- key_eqb_eq. destruct (Mongo.key_eqb a b); split; congruence.
Qed.

(** [split_first] finds the first match and nothing else. *)
Lemma split_first_some (p : agent -> bool) (l before after_ : list agent) (d : agent) :
  Mongo.split_first p l = Some (before, d, after_) ->
  l = before ++ d :: after_ /\ p d = true /\ forallb (fun x => negb (p x)) before = true.
Proof.
  revert before. induction l as [|x l IH]; intros before Hs; cbn in Hs; [discriminate|].
  destruct (p x) eqn:Hpx.
  - inversion Hs; subst. cbn. auto.
  - destruct (Mongo.split_first p l) as [[[b m] a]|] eqn:Hrest; [|discriminate].
    inversion Hs; subst. destruct (IH b eq_refl) as [Hl [Hpd Hb]].
    cbn. rewrite Hpx, Hb, Hl. auto.
Qed.

Lemma split_first_none (p : agent -> bool) (l : list agent) :
  Mongo.split_first p l = None <-> existsb p l = false.
Proof.
  induction l as [|x l IH]; cbn; [tauto|].
  destruct (p x); cbn.
  - split; discriminate.
  - destruct (Mongo.split_first p l) as [[[b m] a]|].
    + split; [discriminate|]. intros H. apply IH in H. discriminate.
    + tauto.
Qed.

Lemma delete_ready (id : option string) (w : world) :
  store_ready w = true ->
  Agents.delete id w
  = match Mongo.split_first (fun d => Mongo.key_eqb (agentId d) id) (agents_coll w) with
    | Some (before, _, after_) =>
        (Ok {| Mongo.deletedCount := 1 |}, set_agents (before ++ after_) w)
    | None => (Ok {| Mongo.deletedCount := 0 |}, w)
    end.
Proof.
  intros Hr. destruct (store_ready_db w Hr) as [h [Hdb Hup]].
  unfold Agents.delete, bind. rewrite (getDB_ready w h Hdb).
  unfold Mongo.deleteOne. rewrite command_up by exact Hup. reflexivity.
Qed.

(** C7. [delete(agentId)] removes the first record with that [agentId] and
    nothing else, and its [deletedCount] tells whether a record was
    removed; when no record has the [agentId] it returns normally with
    count 0 and leaves the store as it was, and the [delete_agent] tool
    then answers [success: false] with the message "Agent ... not found"
    (an ordinary result, not the error payload). *)
Theorem delete_reports_removal
    (env : option string) (a : Args.t) (w : world) :
  store_ready w = true ->
  let id := Args.agentId a in
  let held := existsb (fun d => Mongo.key_eqb (agentId d) id) (agents_coll w) in
  let w' := after (Agents.delete id) w in
  fst (Agents.delete id w) = Ok {| Mongo.deletedCount := if held then 1 else 0 |}
  /\ (held = false -> w' = w)
  /\ (held = true ->
      exists before d after_,
        agents_coll w = before ++ d :: after_
        /\ agentId d = id
        /\ (forall x, In x before -> agentId x <> id)
        /\ w' = set_agents (before ++ after_) w)
  /\ McpServer.CallTool env "delete_agent" (Some a) w
     = (Ok (VObj [("success", VBool held);
                  ("message",
                   VStr ("Agent " ++ interp id
                         ++ (if held then " deleted" else " not found")))]),
        w').
Proof.
  intros Hr id held w'. subst w'. unfold after.
  assert (Htool : forall r w1, Agents.delete id w = (Ok r, w1) ->
            McpServer.CallTool env "delete_agent" (Some a) w
            = (Ok (VObj [("success", VBool (0 <? Mongo.deletedCount r)%nat);
                         ("message",
                          VStr (if (0 <? Mongo.deletedCount r)%nat
                                then "Agent " ++ interp id ++ " deleted"
                                else "Agent " ++ interp id ++ " not found"))]), w1)).
  { intros r w1 Hd. unfold McpServer.CallTool, try_catch. cbn.
    unfold McpServer.delete_agent, bind, McpServer.the_args, ret.
    fold id. rewrite Hd. reflexivity. }
  rewrite (delete_ready id w Hr) in *.
  destruct (Mongo.split_first _ (agents_coll w)) as [[[before d] after_]|] eqn:Hs.
  - assert (Hheld : held = true).
    { destruct held eqn:E; [reflexivity|].
      apply split_first_none in E. congruence. }
    rewrite Hheld. cbn [fst snd]. repeat split.
    + discriminate.
    + intros _. apply split_first_some in Hs. destruct Hs as [Hl [Hd Hb]].
      exists before, d, after_. repeat split; auto.
      * apply key_eqb_eq. exact Hd.
      * intros x Hx. rewrite forallb_forall in Hb. specialize (Hb x Hx).
        apply key_eqb_neq. destruct (Mongo.key_eqb (agentId x) id); [discriminate|reflexivity].
    + rewrite (Htool _ _ eq_refl). reflexivity.
  - apply split_first_none in Hs. fold held in Hs. rewrite Hs. cbn [fst snd].
    repeat split.
    + intros Hc. discriminate.
    + rewrite (Htool _ _ eq_refl). reflexivity.
Qed.

Lemma delete_reports_removal_witness :
  store_ready (seeded unreachable) = true
  /\ McpServer.CallTool None "delete_agent" (Some gone) (seeded unreachable)
     = (Ok (VObj [("success", VBool false);
                  ("message", VStr "Agent AGENT404 not found")]),
        seeded unreachable).
Proof.
  split; [reflexivity|].
  destruct (delete_reports_removal None gone (seeded unreachable) eq_refl)
    as [_ [Hsame [_ Htool]]].
  rewrite Htool. rewrite (Hsame eq_refl). reflexivity.
Defined.

(** The phone lookup reads the handle, the deployment and the collection,
    nothing else. *)
Lemma getByPhoneNumber_frame (phone : option string) (w1 w2 : world) :
  reachability w1 = reachability w2 ->
  agents_coll w1 = agents_coll w2 ->
  fst (Agents.getByPhoneNumber phone w1) = fst (Agents.getByPhoneNumber phone w2).
Proof.
  unfold reachability. intros Hr Hc. inversion Hr as [[Hdb Hup]]. clear Hr.
  unfold Agents.getByPhoneNumber, getDB, bind, gets, ret, throw,
    Mongo.findOne, Mongo.command. cbn.
  destruct (db w1), (db w2); try discriminate; cbn; [|reflexivity].
  rewrite Hup. destruct (mongo_up w2); cbn; rewrite ?Hc; reflexivity.
Qed.

Section PromptRoute.

Variable env : option string.
Variable p : string.
Hypothesis p_given : p <> "".

Lemma try_prompts_run (w : world) :
  HttpBridge.try_prompts env (Some p) w
  = (Ok (option_map (fun data => res_json (prompts_payload data))
           (positive_prompt (upstream w (prompt_request env p)))),
     sent (prompt_request env p) w).
Proof.
  unfold HttpBridge.try_prompts, try_catch, bind, await_fetch, bind, fetch.
  fold (prompt_request env p). fold (sent (prompt_request env p) w).
  destruct (upstream w (prompt_request env p)) as [msg|st [d|]]; cbn; try reflexivity.
  - destruct (response_ok st); cbn; [|reflexivity].
    destruct d; cbn; try reflexivity.
    destruct (truthy _); reflexivity.
  - destruct (response_ok st); reflexivity.
Qed.

Lemma get_agent_prompt_run (w : world) :
  HttpBridge.get_agent_prompt env (Some p) w
  = match positive_prompt (upstream w (prompt_request env p)) with
    | Some data => (Ok (res_json (prompts_payload data)), sent (prompt_request env p) w)
    | None =>
        (Ok (local_reply p (fst (Agents.getByPhoneNumber (Some p) w))),
         sent (prompt_request env p) w)
    end.
Proof.
  unfold HttpBridge.get_agent_prompt, try_catch, bind.
  assert (Ht : truthy_str (Some p) = true).
  { cbn. destruct (String.eqb_spec p ""); [contradiction|reflexivity]. }
  rewrite Ht. cbn [negb]. rewrite try_prompts_run.
  set (req := prompt_request env p).
  destruct (positive_prompt (upstream w req)) as [data|]; cbn [option_map]; [reflexivity|].
  rewrite (getByPhoneNumber_frame (Some p) w (sent req w)) by reflexivity.
  pose proof (getByPhoneNumber_pure (Some p) (sent req w)) as Hpure.
  destruct (Agents.getByPhoneNumber (Some p) (sent req w)) as [[[a|]|e] w2];
    cbn in Hpure |- *; subst w2; reflexivity.
Qed.

End PromptRoute.

Lemma positive_prompt_failures :
  (forall msg, positive_prompt (NetworkError msg) = None)
  /\ (forall st json, response_ok st = false -> positive_prompt (Responded st json) = None)
  /\ (forall st, positive_prompt (Responded st None) = None)
  /\ (forall st data flag,
        get_prop data "success" = Ok flag -> truthy flag = false ->
        positive_prompt (Responded st (Some data)) = None).
Proof.
  repeat split; intros; cbn.
  - destruct json; [|reflexivity]. rewrite H. reflexivity.
  - rewrite H, H0. destruct (response_ok st); reflexivity.
Qed.

(** C1. A [POST /api/get-agent-prompt] request that carries a phone number
    issues exactly one upstream request, the prompts-by-phone lookup
    [GET <base>/api/prompts/by-phone/<phone number, URI-encoded>] with the
    configured base URL or its default, and changes nothing else.  Its reply is the upstream payload tagged
    [source: 'prompts'] exactly when that lookup succeeded with a positive
    result flag.  Otherwise (network error, non-success status, unreadable
    body or negative flag) the reply comes from the local phone lookup:
    the agent payload tagged [source: 'agents'] on a hit, status 404 on a
    miss, and a 404 is sent only when both lookups miss.  With the backend
    unreachable and a matching local record the reply is
    [{success: true, source: 'agents', ...}] with the agent's name and
    prompt. *)
Theorem get_agent_prompt_fallback_chain (env : option string) (p : string) (w : world) :
  p <> "" ->
  let req :=
    mk_request GET
      ((if truthy_str env then interp env else "https://digital-api-tef8.onrender.com")
       ++ "/api/prompts/by-phone/" ++ encodeURIComponent p)%string
      None in
  let reply := fst (HttpBridge.get_agent_prompt env (Some p) w) in
  let lookup := fst (Agents.getByPhoneNumber (Some p) w) in
  after (HttpBridge.get_agent_prompt env (Some p)) w = sent req w
  /\ (source_tag reply = Some "prompts" <-> positive_prompt (upstream w req) <> None)
  /\ (forall data, positive_prompt (upstream w req) = Some data ->
        reply = Ok (res_json (prompts_payload data)))
  /\ ((exists msg, upstream w req = NetworkError msg)
      \/ (exists st json, upstream w req = Responded st json /\ response_ok st = false)
      \/ (exists st data flag,
            upstream w req = Responded st (Some data)
            /\ get_prop data "success" = Ok flag /\ truthy flag = false) ->
      positive_prompt (upstream w req) = None)
  /\ (positive_prompt (upstream w req) = None ->
        (forall a, lookup = Ok (Some a) ->
           reply = Ok (mk_response 200
                         (VObj [("success", VBool true);
                                ("source", VStr "agents");
                                ("agentId", of_key (agentId a));
                                ("agentName", of_key (agentName a));
                                ("phoneNumber", of_key (phoneNumber a));
                                ("agentPrompt", agentPrompt a);
                                ("active", of_flag (active a))]))
           /\ source_tag reply = Some "agents")
        /\ (lookup = Ok None ->
            reply = Ok (mk_response 404
                          (failure ("No agent found for phone number " ++ p)))))
  /\ (forall b, reply = Ok (mk_response 404 b) ->
        positive_prompt (upstream w req) = None /\ lookup = Ok None)
  /\ (forall msg a,
        upstream w req = NetworkError msg ->
        store_ready w = true ->
        find (fun d => Mongo.key_eqb (phoneNumber d) (Some p)) (agents_coll w) = Some a ->
        reply = Ok (res_json (VObj [("success", VBool true);
                                    ("source", VStr "agents");
                                    ("agentId", of_key (agentId a));
                                    ("agentName", of_key (agentName a));
                                    ("phoneNumber", of_key (phoneNumber a));
                                    ("agentPrompt", agentPrompt a);
                                    ("active", of_flag (active a))]))).
Proof.
  intros Hp. cbv zeta.
  change (mk_request GET
            ((if truthy_str env then interp env else "https://digital-api-tef8.onrender.com")
             ++ "/api/prompts/by-phone/" ++ encodeURIComponent p)%string None)
    with (prompt_request env p).
  set (req := prompt_request env p).
  set (reply := fst (HttpBridge.get_agent_prompt env (Some p) w)).
  set (lookup := fst (Agents.getByPhoneNumber (Some p) w)).
  pose proof (get_agent_prompt_run env p Hp w) as Hrun.
  fold req in Hrun. fold lookup in Hrun.
  assert (Hkinds :
            (exists msg, upstream w req = NetworkError msg)
            \/ (exists st json, upstream w req = Responded st json /\ response_ok st = false)
            \/ (exists st data flag,
                  upstream w req = Responded st (Some data)
                  /\ get_prop data "success" = Ok flag /\ truthy flag = false) ->
            positive_prompt (upstream w req) = None).
  { destruct positive_prompt_failures as [Hnet [Hstatus [_ Hflag]]].
    intros [[msg H] | [[st [json [H Hok]]] | [st [data [flag [H [Hget Hfalse]]]]]]];
      rewrite H; [apply Hnet | apply Hstatus; exact Hok | apply (Hflag st data flag Hget Hfalse)]. }
  unfold after. subst reply.
  destruct (positive_prompt (upstream w req)) as [data|] eqn:Hpos; rewrite Hrun; cbn [fst snd].
  - split; [reflexivity|]. split.
    { cbn. split; [discriminate | reflexivity]. }
    split. { intros d Hd. inversion Hd. reflexivity. }
    split. { exact Hkinds. }
    split. { discriminate. }
    split. { intros b Hb. discriminate. }
    intros msg a Hnet. rewrite Hnet in Hpos. discriminate.
  - split; [reflexivity|]. split.
    { split; [|congruence]. destruct lookup as [[a|]|e]; cbn; discriminate. }
    split. { discriminate. }
    split. { reflexivity. }
    split.
    { intros _. split.
      - intros a Ha. rewrite Ha. cbn. split; reflexivity.
      - intros Hl. rewrite Hl. reflexivity. }
    split.
    { intros b Hb. split; [reflexivity|].
      destruct lookup as [[a|]|e]; cbn in Hb; [discriminate | reflexivity | discriminate]. }
    intros msg a _ Hr Hfind. unfold lookup.
    rewrite (getByPhoneNumber_ready (Some p) w Hr). cbn [fst]. rewrite Hfind. reflexivity.
Qed.

Lemma get_agent_prompt_fallback_chain_witness :
  "+12025551234" <> ""
  /\ fst (HttpBridge.get_agent_prompt None (Some "+12025551234") (seeded unreachable))
     = Ok (mk_response 200
             (VObj [("success", VBool true);
                    ("source", VStr "agents");
                    ("agentId", VStr "AGENT001");
                    ("agentName", VStr "Sales Assistant Bot");
                    ("phoneNumber", VStr "+12025551234");
                    ("agentPrompt", VStr "You are a sales assistant.");
                    ("active", VBool true)]))
  /\ snd (HttpBridge.get_agent_prompt None (Some "+12025551234") (seeded unreachable))
     = set_outbox
         [mk_request GET
            "https://digital-api-tef8.onrender.com/api/prompts/by-phone/%2B12025551234"
            None]
         (seeded unreachable).
Proof.
  assert (Hne : "+12025551234" <> "") by discriminate.
  split; [exact Hne|].
  destruct (get_agent_prompt_fallback_chain None "+12025551234" (seeded unreachable) Hne)
    as [Hsent [_ [_ [_ [_ [_ Hscenario]]]]]].
  split.
  - rewrite (Hscenario "fetch failed" sales_record eq_refl eq_refl eq_refl).
    reflexivity.
  - unfold after in Hsent. rewrite Hsent. reflexivity.
Defined.



Lemma listing_entry_view (a b : agent) :
  public_view a = public_view b -> HttpBridge.listing_entry a = HttpBridge.listing_entry b.
Proof.
  unfold public_view, HttpBridge.listing_entry. intros H. inversion H. reflexivity.
Qed.

Lemma listing_by_view (l1 l2 : list agent) :
  map public_view l1 = map public_view l2 ->
  map HttpBridge.listing_entry l1 = map HttpBridge.listing_entry l2
  /\ length l1 = length l2.
Proof.
  revert l2. induction l1 as [|a l1 IH]; intros [|b l2] H; cbn in H; try discriminate.
  - split; reflexivity.
  - injection H as Hid Hname Hphone Hrest.
    assert (Hab : public_view a = public_view b) by (unfold public_view; congruence).
    destruct (IH l2 Hrest) as [Hm Hl].
    cbn. rewrite (listing_entry_view a b Hab), Hm, Hl. split; reflexivity.
Qed.

Lemma get_agents_run (w : world) :
  HttpBridge.get_agents w
  = (Ok (match db w with
         | None => mk_response 500 (failure (message not_initialized))
         | Some _ =>
             if mongo_up w then
               let shown := filter Agents.is_active (agents_coll w) in
               res_json (VObj [("success", VBool true);
                               ("count", VNum (Z.of_nat (length shown)));
                               ("agents", VArr (map HttpBridge.listing_entry shown))])
             else mk_response 500 (failure (message Mongo.MongoNetworkError))
         end), w).
Proof.
  unfold HttpBridge.get_agents, try_catch, bind, Agents.getAllActive, getDB, bind, gets,
    Mongo.find_toArray, Mongo.command. cbn.
  destruct (db w); cbn; [|reflexivity].
  destruct (mongo_up w); reflexivity.
Qed.

(** C9. The [GET /api/agents] reply lists the active records only, each
    reduced to [agentId], [agentName] and [phoneNumber]: two store states
    whose active records agree on these three fields get the same reply,
    however they differ in prompts, metadata, timestamps, identifiers or
    inactive records. *)
Theorem get_agents_public_view_only (w1 w2 : world) :
  reachability w1 = reachability w2 ->
  map public_view (filter Agents.is_active (agents_coll w1))
  = map public_view (filter Agents.is_active (agents_coll w2)) ->
  fst (HttpBridge.get_agents w1) = fst (HttpBridge.get_agents w2)
  /\ (store_ready w1 = true ->
      fst (HttpBridge.get_agents w1)
      = Ok (res_json
              (VObj [("success", VBool true);
                     ("count",
                      VNum (Z.of_nat (length (filter Agents.is_active (agents_coll w1)))));
                     ("agents",
                      VArr (map (fun a => VObj [("agentId", of_key (agentId a));
                                                ("agentName", of_key (agentName a));
                                                ("phoneNumber", of_key (phoneNumber a))])
                              (filter Agents.is_active (agents_coll w1))))]))).
Proof.
  intros Hr Hview. rewrite !get_agents_run. cbn [fst].
  unfold reachability in Hr. inversion Hr as [[Hdb Hup]]. clear Hr.
  split.
  - destruct (db w1), (db w2); try discriminate; [|reflexivity].
    rewrite Hup. destruct (mongo_up w2); [|reflexivity].
    cbv zeta. destruct (listing_by_view _ _ Hview) as [Hm Hl].
    rewrite Hm, Hl. reflexivity.
  - intros Hready. unfold store_ready in Hready.
    destruct (db w1); [|discriminate]. rewrite Hready. reflexivity.
Qed.

Lemma get_agents_public_view_only_witness :
  reachability (seeded unreachable) = reachability reseeded
  /\ fst (HttpBridge.get_agents (seeded unreachable))
     = fst (HttpBridge.get_agents reseeded).
Proof.
  split; [reflexivity|].
  apply (get_agents_public_view_only (seeded unreachable) reseeded); reflexivity.
Defined.

(* ------------------------------------------------------------------ *)
(** *** The appointment search of the tool facade                      *)
(* ------------------------------------------------------------------ *)

Lemma strip_digits_only (s : string) : all_chars is_digit (strip_non_digits s) = true.
Proof.
  unfold strip_non_digits. induction s as [|c s IH]; cbn; [reflexivity|].
  destruct (is_digit c) eqn:Hc; cbn; [rewrite Hc; exact IH | exact IH].
Qed.

Lemma strip_keeps_digits (s : string) :
  all_chars is_digit s = true -> strip_non_digits s = s.
Proof.
  unfold strip_non_digits. induction s as [|c s IH]; cbn; [reflexivity|].
  destruct (is_digit c); cbn; [|discriminate].
  intros H. rewrite (IH H). reflexivity.
Qed.

Lemma strip_app (s t : string) :
  strip_non_digits (s ++ t) = (strip_non_digits s ++ strip_non_digits t)%string.
Proof.
  unfold strip_non_digits. induction s as [|c s IH]; cbn; [reflexivity|].
  destruct (is_digit c); cbn; rewrite IH; reflexivity.
Qed.

Lemma get_prop_ok (v x : value) (k : string) :
  get_prop v k = Ok x -> x = prop_or_undefined v k.
Proof. destruct v; cbn; intros H; inversion H; reflexivity. Qed.

Lemma open_status_cases (v : value) :
  McpServer.open_status v = true -> v = VStr "scheduled" \/ v = VStr "confirmed".
Proof.
  destruct v; cbn; try discriminate.
  intros H. apply orb_prop in H. destruct H as [H|H]; apply String.eqb_eq in H; subst; auto.
Qed.

(** What [filter] keeps has an open status, and it keeps nothing new. *)
Lemma filter_open_kept (l kept : list value) :
  McpServer.filter_open l = Ok kept ->
  kept = filter (fun apt => McpServer.open_status (prop_or_undefined apt "status")) l.
Proof.
  revert kept. induction l as [|apt l IH]; intros kept H; cbn in H.
  - inversion H. reflexivity.
  - destruct (get_prop apt "status") as [st|e] eqn:Hst; [|discriminate].
    destruct (McpServer.filter_open l) as [k|e]; [|discriminate].
    apply get_prop_ok in Hst. subst st. inversion H; subst.
    cbn [filter]. rewrite <- (IH k eq_refl).
    destruct (McpServer.open_status _); reflexivity.
Qed.

Lemma summary_status (apt s : value) :
  McpServer.summary apt = Ok s ->
  prop_or_undefined s "status" = prop_or_undefined apt "status".
Proof.
  unfold McpServer.summary.
  destruct (get_prop apt "_id"); [|discriminate].
  destruct (get_prop_opt _ _); [|discriminate].
  intros H. inversion H. reflexivity.
Qed.

(** [map] keeps the [status] of every element. *)
Lemma map_summary_status (l mapped : list value) (s : value) :
  McpServer.map_summary l = Ok mapped -> In s mapped ->
  exists apt, In apt l /\ prop_or_undefined s "status" = prop_or_undefined apt "status".
Proof.
  revert mapped. induction l as [|apt l IH]; intros mapped H Hin; cbn in H.
  - inversion H; subst. contradiction.
  - destruct (McpServer.summary apt) as [x|e] eqn:Hx; [|discriminate].
    destruct (McpServer.map_summary l) as [ss|e]; [|discriminate].
    inversion H; subst. destruct Hin as [Heq|Hin].
    + subst x. exists apt. split; [left; reflexivity | apply summary_status; exact Hx].
    + destruct (IH ss eq_refl Hin) as [apt' [Hin' Hs]]. exists apt'. split; [right|]; assumption.
Qed.

Lemma filter_open_objects (l : list value) :
  Forall is_object l ->
  McpServer.filter_open l
  = Ok (filter (fun apt => McpServer.open_status (prop_or_undefined apt "status")) l).
Proof.
  induction 1 as [|apt l [props Hobj] _ IH]; cbn; [reflexivity|].
  subst apt. cbn. rewrite IH. cbn. destruct (McpServer.open_status _); reflexivity.
Qed.

Lemma map_summary_objects (l : list value) :
  Forall is_object l ->
  exists mapped, McpServer.map_summary l = Ok mapped /\ length mapped = length l.
Proof.
  induction 1 as [|apt l [props Hobj] _ [mapped [Hm Hlen]]]; cbn.
  - exists []. split; reflexivity.
  - subst apt. unfold McpServer.summary. cbn [get_prop].
    destruct (get_prop_opt _ "doctor_name") as [doctor|e] eqn:Hd.
    + rewrite Hm. eexists. split; [reflexivity|]. cbn. rewrite Hlen. reflexivity.
    + exfalso. revert Hd. unfold get_prop_opt, get_prop.
      destruct (prop_or_undefined (VObj props) "metadata"); intros Hd; discriminate Hd.
Qed.

Lemma Forall_filter {A : Type} (P : A -> Prop) (f : A -> bool) (l : list A) :
  Forall P l -> Forall P (filter f l).
Proof.
  induction 1 as [|x l Hx _ IH]; cbn; [constructor|].
  destruct (f x); [constructor; assumption | assumption].
Qed.

Ltac failure_payload := eexists; split; [reflexivity | left; eauto].

Section AppointmentSearch.

Variable env : option string.

(** The tool returns normally, with a failure payload or with the list it
    filtered and mapped. *)
Lemma find_patient_appointments_shape (args : option Args.t) (w : world) :
  exists v,
    McpServer.find_patient_appointments env args w = (Ok v, searched env args w)
    /\ ((exists msg, v = failure msg)
        \/ exists a phone items mapped,
             args = Some a
             /\ Args.patientPhone a = Some phone
             /\ v = VObj [("success", VBool true);
                          ("patientPhone", VStr phone);
                          ("count", VNum (Z.of_nat (length items)));
                          ("appointments", VArr mapped)]
             /\ McpServer.map_summary items = Ok mapped
             /\ (McpServer.flag (Args.includeCompleted a) = false ->
                 exists listed, McpServer.filter_open listed = Ok items)).
Proof.
  unfold McpServer.find_patient_appointments, try_catch, bind, McpServer.the_args,
    searched.
  destruct args as [a|]; cbn; [|failure_payload].
  destruct (Args.patientPhone a) as [phone|] eqn:Hphone; cbn;
    [|failure_payload].
  unfold await_fetch, bind, fetch, McpServer.appointments_url.
  fold (appointments_query env phone). fold (sent (appointments_query env phone) w).
  destruct (upstream w (appointments_query env phone)) as [msg|st [data|]]; cbn;
    try (failure_payload).
  destruct (get_prop data "appointments") as [listed|e]; cbn;
    [|failure_payload].
  destruct (McpServer.flag (Args.includeCompleted a)) eqn:Hflag; cbn.
  - destruct (McpServer.as_array (or_else listed (VArr [])) "map") as [items|e]; cbn;
      [|failure_payload].
    destruct (McpServer.map_summary items) as [mapped|e] eqn:Hm; cbn;
      [|failure_payload].
    eexists. split; [reflexivity|]. right.
    exists a, phone, items, mapped.
    split; [reflexivity|]. split; [exact Hphone|]. split; [reflexivity|].
    split; [exact Hm|]. intros Hc. congruence.
  - destruct (McpServer.as_array (or_else listed (VArr [])) "filter") as [items0|e]; cbn;
      [|failure_payload].
    destruct (McpServer.filter_open items0) as [items|e] eqn:Hf; cbn;
      [|failure_payload].
    destruct (McpServer.map_summary items) as [mapped|e] eqn:Hm; cbn;
      [|failure_payload].
    eexists. split; [reflexivity|]. right.
    exists a, phone, items, mapped.
    split; [reflexivity|]. split; [exact Hphone|]. split; [reflexivity|].
    split; [exact Hm|]. intros _. exists items0. exact Hf.
Qed.

Lemma CallTool_find (args : option Args.t) (w : world) :
  McpServer.CallTool env "find_patient_appointments" args w
  = McpServer.find_patient_appointments env args w.
Proof.
  unfold McpServer.CallTool, try_catch. cbn.
  destruct (find_patient_appointments_shape args w) as [v [Hrun _]].
  rewrite Hrun. reflexivity.
Qed.

End AppointmentSearch.

(** C5. A [find_patient_appointments] call queries
    [/api/appointments?phone=] with the [patientPhone] it was given,
    stripped of every character that is not a digit (["(202) 555-1234"]
    becomes ["2025551234"]), and issues no other request.  It always
    returns a payload; when [includeCompleted] is omitted or false, every
    appointment of the returned list has status [scheduled] or
    [confirmed], and for an upstream list of appointment objects the list
    returned is the upstream one restricted to these two statuses. *)
Theorem find_patient_appointments_digits_and_open
    (env : option string) (args : option Args.t) (w : world) :
  let run := McpServer.CallTool env "find_patient_appointments" args in
  let open := fun apt => McpServer.open_status (prop_or_undefined apt "status") in
  after run w
  = match args with
    | Some a =>
        match Args.patientPhone a with
        | Some phone =>
            sent (mk_request GET
                    (McpServer.API_BASE_URL env ++ "/api/appointments?phone="
                       ++ strip_non_digits phone)
                    None) w
        | None => w
        end
    | None => w
    end
  /\ (forall phone,
        all_chars is_digit (strip_non_digits phone) = true
        /\ (all_chars is_digit phone = true -> strip_non_digits phone = phone)
        /\ (forall more,
              strip_non_digits (phone ++ more)
              = (strip_non_digits phone ++ strip_non_digits more)%string))
  /\ strip_non_digits "(202) 555-1234" = "2025551234"
  /\ (exists v, fst (run w) = Ok v)
  /\ (forall a props items,
        args = Some a ->
        McpServer.flag (Args.includeCompleted a) = false ->
        fst (run w) = Ok (VObj props) ->
        assoc "appointments" props = Some (VArr items) ->
        all_open items)
  /\ (forall a phone st dprops apts,
        args = Some a ->
        Args.patientPhone a = Some phone ->
        McpServer.flag (Args.includeCompleted a) = false ->
        upstream w (appointments_query env phone) = Responded st (Some (VObj dprops)) ->
        assoc "appointments" dprops = Some (VArr apts) ->
        Forall is_object apts ->
        exists mapped,
          fst (run w)
          = Ok (VObj [("success", VBool true);
                      ("patientPhone", VStr phone);
                      ("count", VNum (Z.of_nat (length (filter open apts))));
                      ("appointments", VArr mapped)])
          /\ McpServer.map_summary (filter open apts) = Ok mapped
          /\ length mapped = length (filter open apts)).
Proof.
  intros run open. unfold run, after. rewrite CallTool_find.
  destruct (find_patient_appointments_shape env args w) as [v [Hrun Hshape]].
  split; [rewrite Hrun; reflexivity|].
  split.
  { intros phone. split; [apply strip_digits_only|].
    split; [apply strip_keeps_digits | intros more; apply strip_app]. }
  split; [reflexivity|].
  split. { exists v. rewrite Hrun. reflexivity. }
  split.
  - intros a props items Hargs Hflag Hv Hitems. rewrite Hrun in Hv. cbn in Hv.
    inversion Hv; subst v. clear Hv.
    destruct Hshape as [[msg Hfail] | [a' [phone [kept [mapped [Ha [_ [Hv [Hm Hf]]]]]]]]].
    + unfold failure in Hfail. inversion Hfail; subst props. cbn in Hitems. discriminate.
    + rewrite Hargs in Ha. inversion Ha; subst a'.
      inversion Hv; subst props. cbn in Hitems. inversion Hitems; subst items.
      destruct (Hf Hflag) as [listed Hlisted].
      apply filter_open_kept in Hlisted.
      intros s Hs. destruct (map_summary_status kept mapped s Hm Hs) as [apt [Hin Hst]].
      rewrite Hst. apply open_status_cases.
      rewrite Hlisted in Hin. apply filter_In in Hin. exact (proj2 Hin).
  - intros a phone st dprops apts Hargs Hphone Hflag Hup Hlist Hobj.
    destruct (map_summary_objects (filter open apts) (Forall_filter _ _ _ Hobj))
      as [mapped [Hm Hlen]].
    exists mapped. split; [|split; assumption].
    subst args.
    unfold McpServer.find_patient_appointments, try_catch, bind, McpServer.the_args, ret.
    rewrite Hphone.
    unfold await_fetch, bind, fetch, McpServer.appointments_url.
    fold (appointments_query env phone). rewrite Hup. cbn. rewrite Hlist. cbn.
    rewrite Hflag. cbn.
    rewrite (filter_open_objects apts Hobj). cbn. fold open.
    rewrite Hm. reflexivity.
Qed.

Lemma find_patient_appointments_digits_and_open_witness :
  outbox (after (McpServer.CallTool None "find_patient_appointments" (Some patient))
            (boot clinic))
  = [mk_request GET "http://localhost:4000/api/appointments?phone=2025551234" None]
  /\ exists mapped,
       fst (McpServer.CallTool None "find_patient_appointments" (Some patient) (boot clinic))
       = Ok (VObj [("success", VBool true);
                   ("patientPhone", VStr "(202) 555-1234");
                   ("count", VNum 2);
                   ("appointments", VArr mapped)])
       /\ all_open mapped.
Proof.
  destruct (find_patient_appointments_digits_and_open None (Some patient) (boot clinic))
    as [Hworld [_ [_ [_ [Hopen Hlist]]]]].
  split; [rewrite Hworld; reflexivity|].
  destruct (Hlist patient "(202) 555-1234" 200%Z
              [("appointments",
                VArr [appointment "a1" "scheduled";
                      appointment "a2" "completed";
                      appointment "a3" "confirmed"])]
              [appointment "a1" "scheduled";
               appointment "a2" "completed";
               appointment "a3" "confirmed"]
              eq_refl eq_refl eq_refl eq_refl eq_refl)
    as [mapped [Hrun _]].
  { repeat constructor; eexists; reflexivity. }
  exists mapped. split; [exact Hrun|].
  apply (Hopen patient _ mapped eq_refl eq_refl Hrun). reflexivity.
Defined.

(* ------------------------------------------------------------------ *)
(** *** [Agents.upsert]                                                *)
(* ------------------------------------------------------------------ *)

Lemma existsb_none {A : Type} (f : A -> bool) (l : list A) :
  existsb f l = false <-> forall x, In x l -> f x = false.
Proof.
  induction l as [|y l IH]; cbn.
  - split; [intros _ x [] | reflexivity].
  - rewrite orb_false_iff, IH. split.
    + intros [Hy Hl] x [Hx|Hx]; [subst; exact Hy | apply Hl; exact Hx].
    + intros H. split; [apply H; left; reflexivity | intros x Hx; apply H; right; exact Hx].
Qed.

Lemma split_first_at (p : agent -> bool) (before after_ : list agent) (d : agent) :
  (forall x, In x before -> p x = false) -> p d = true ->
  Mongo.split_first p (before ++ d :: after_) = Some (before, d, after_).
Proof.
  induction before as [|x before IH]; intros Hb Hd; cbn.
  - rewrite Hd. reflexivity.
  - rewrite (Hb x (or_introl eq_refl)).
    rewrite IH; [reflexivity | intros y Hy; apply Hb; right; exact Hy | exact Hd].
Qed.

Lemma keys_free_no_violation (w : world) (data : agent_data) (others : list agent)
    (d : agent) :
  keys_free data others ->
  agentId d = data_agentId data -> phoneNumber d = data_phoneNumber data ->
  Mongo.violates w others d = None.
Proof.
  intros Hfree Hid Hphone. unfold Mongo.violates.
  assert (Ha : existsb (fun o => Mongo.key_eqb (agentId o) (agentId d)) others = false).
  { apply existsb_none. intros o Ho. apply key_eqb_neq. rewrite Hid. apply (Hfree o Ho). }
  assert (Hp : existsb (fun o => Mongo.key_eqb (phoneNumber o) (phoneNumber d)) others = false).
  { apply existsb_none. intros o Ho. apply key_eqb_neq. rewrite Hphone. apply (Hfree o Ho). }
  rewrite Ha, Hp, !andb_false_r. reflexivity.
Qed.

Lemma upsert_run (data : agent_data) (w : world) :
  store_ready w = true ->
  Agents.upsert data w
  = Mongo.updateOne (data_agentId data)
      (Agents.set_fields data (clock w))
      (Some (Agents.set_createdAt (clock w))) w.
Proof.
  intros Hr. destruct (store_ready_db w Hr) as [h [Hdb Hup]].
  unfold Agents.upsert, bind. rewrite (getDB_ready w h Hdb). reflexivity.
Qed.

(** A failed [updateOne] writes nothing. *)
Lemma updateOne_throw_unchanged (id : option string) (set : agent -> agent)
    (ins : option (agent -> agent)) (w : world) (e : js_error) :
  fst (Mongo.updateOne id set ins w) = Throw e -> snd (Mongo.updateOne id set ins w) = w.
Proof.
  unfold Mongo.updateOne, Mongo.command.
  destruct (mongo_up w); [|reflexivity].
  destruct (Mongo.split_first _ _) as [[[before d] after_]|].
  - destruct (Mongo.violates _ _ _); cbn; [reflexivity | discriminate].
  - destruct ins as [f|]; cbn; [|discriminate].
    destruct (Mongo.violates _ _ _); cbn; [reflexivity | discriminate].
Qed.

(** Whatever it answers, [updateOne] with a [$set] that keeps [_id],
    [agentId] and [createdAt] leaves these fields of every stored record
    as they were; a record it inserts comes after them. *)
Lemma updateOne_keeps_creation (id : option string) (set : agent -> agent)
    (ins : option (agent -> agent)) (w : world) :
  (forall d, _id (set d) = _id d /\ agentId (set d) = agentId d
             /\ createdAt (set d) = createdAt d) ->
  creation_stamps
    (firstn (length (agents_coll w)) (agents_coll (snd (Mongo.updateOne id set ins w))))
  = creation_stamps (agents_coll w).
Proof.
  intros Hset.
  assert (Hsame : creation_stamps (firstn (length (agents_coll w)) (agents_coll w))
                  = creation_stamps (agents_coll w)).
  { rewrite firstn_all. reflexivity. }
  unfold Mongo.updateOne, Mongo.command.
  destruct (mongo_up w); [|exact Hsame].
  destruct (Mongo.split_first _ _) as [[[before d] after_]|] eqn:Hsplit.
  - destruct (Mongo.violates _ _ _); cbn [snd]; [exact Hsame|].
    apply split_first_some in Hsplit. destruct Hsplit as [Hcoll _].
    cbn. rewrite Hcoll.
    assert (Hlen : length (before ++ d :: after_) = length (before ++ set d :: after_)).
    { rewrite !length_app. reflexivity. }
    rewrite Hlen, firstn_all. unfold creation_stamps. rewrite !map_app. cbn.
    destruct (Hset d) as [H1 [H2 H3]]. rewrite H1, H2, H3. reflexivity.
  - destruct ins as [f|]; cbn [snd]; [|exact Hsame].
    destruct (Mongo.violates _ _ _); cbn [snd]; [exact Hsame|].
    cbn. rewrite firstn_app, firstn_all, Nat.sub_diag. cbn. rewrite app_nil_r.
    reflexivity.
Qed.

(** A successful upsert either rewrote the first record with the
    [agentId] or, no record having it, appended one. *)
Lemma upsert_ok_cases (data : agent_data) (w : world) (r : Mongo.update_result) :
  mongo_up w = true ->
  let run := Mongo.updateOne (data_agentId data)
               (Agents.set_fields data (clock w))
               (Some (Agents.set_createdAt (clock w))) in
  fst (run w) = Ok r ->
  (exists before old after_ d,
      agents_coll w = before ++ old :: after_
      /\ agentId old = data_agentId data
      /\ (forall o, In o before -> agentId o <> data_agentId data)
      /\ run w = (Ok {| Mongo.matchedCount := 1; Mongo.upsertedCount := 0 |},
                  set_agents (before ++ d :: after_) w)
      /\ written data (clock w) d
      /\ createdAt d = createdAt old
      /\ _id d = _id old)
  \/ ((forall o, In o (agents_coll w) -> agentId o <> data_agentId data)
      /\ exists d,
           run w = (Ok {| Mongo.matchedCount := 0; Mongo.upsertedCount := 1 |},
                    set_next_oid (N.succ (next_oid w))
                      (set_agents (agents_coll w ++ [d]) w))
           /\ written data (clock w) d
           /\ createdAt d = clock w).
Proof.
  intros Hup run. unfold run, Mongo.updateOne. rewrite command_up by exact Hup.
  destruct (Mongo.split_first _ _) as [[[before old] after_]|] eqn:Hsplit.
  - destruct (Mongo.violates _ _ _); cbn [fst]; [discriminate|]. intros _.
    left. apply split_first_some in Hsplit. destruct Hsplit as [Hcoll [Hold Hbefore]].
    apply key_eqb_eq in Hold.
    exists before, old, after_, (Agents.set_fields data (clock w) old).
    split; [exact Hcoll|]. split; [exact Hold|]. split.
    { intros o Ho. apply key_eqb_neq.
      rewrite forallb_forall in Hbefore. specialize (Hbefore o Ho).
      apply negb_true_iff in Hbefore. exact Hbefore. }
    split; [reflexivity|]. split; [|split; reflexivity].
    unfold written. cbn. repeat split; try reflexivity. exact Hold.
  - destruct (Mongo.violates _ _ _); cbn [fst]; [discriminate|]. intros _.
    right. split.
    { apply split_first_none in Hsplit. intros o Ho. apply key_eqb_neq.
      revert o Ho. apply existsb_none. exact Hsplit. }
    eexists. split; [reflexivity|]. split; [|reflexivity].
    unfold written. cbn. repeat split; reflexivity.
Qed.

(** An upsert that reaches the deployment fails only on a unique index. *)
Lemma upsert_throw_duplicate (id : option string) (set : agent -> agent)
    (ins : agent -> agent) (w : world) (e : js_error) :
  mongo_up w = true ->
  fst (Mongo.updateOne id set (Some ins) w) = Throw e ->
  exists ix, e = Mongo.DuplicateKey ix.
Proof.
  intros Hup. unfold Mongo.updateOne. rewrite command_up by exact Hup.
  destruct (Mongo.split_first _ _) as [[[before old] after_]|];
    destruct (Mongo.violates _ _ _) as [ix|]; cbn [fst]; try discriminate;
    intros H; inversion H; exists ix; reflexivity.
Qed.

(** C4, as the code has it.  [upsert] is keyed by [agentId].  With the
    store answering: when no record holds the [agentId] or the
    [phoneNumber] of the input, [upsert] appends a record carrying the
    input, with [createdAt] and [updatedAt] set to the current time, and
    reports an insert; when a record holds the [agentId] and no other
    record holds the [phoneNumber], [upsert] overwrites all its other
    fields, sets [updatedAt] to the current time, keeps [createdAt] and
    [_id], leaves every other record alone, and reports an update.  Every
    call that succeeds is one of the two: it rewrote the first record with
    the [agentId] in this way, or, no record having the [agentId], it
    appended the new record.  A call that fails fails with a duplicate-key
    error and changes nothing.  Whatever the call answers, every record
    stored before it keeps its [_id], [agentId] and [createdAt]. *)
Theorem upsert_keyed_by_agentId (data : agent_data) (w : world) :
  store_ready w = true ->
  let run := Agents.upsert data in
  (keys_free data (agents_coll w) ->
   exists d,
     run w = (Ok {| Mongo.matchedCount := 0; Mongo.upsertedCount := 1 |},
              set_next_oid (N.succ (next_oid w)) (set_agents (agents_coll w ++ [d]) w))
     /\ written data (clock w) d
     /\ createdAt d = clock w)
  /\ (forall before old after_,
        agents_coll w = before ++ old :: after_ ->
        agentId old = data_agentId data ->
        keys_free data (before ++ after_) ->
        exists d,
          run w = (Ok {| Mongo.matchedCount := 1; Mongo.upsertedCount := 0 |},
                   set_agents (before ++ d :: after_) w)
          /\ written data (clock w) d
          /\ createdAt d = createdAt old
          /\ _id d = _id old)
  /\ (forall e, fst (run w) = Throw e -> after run w = w)
  /\ (forall r, fst (run w) = Ok r ->
        (exists before old after_ d,
            agents_coll w = before ++ old :: after_
            /\ agentId old = data_agentId data
            /\ (forall o, In o before -> agentId o <> data_agentId data)
            /\ run w = (Ok {| Mongo.matchedCount := 1; Mongo.upsertedCount := 0 |},
                        set_agents (before ++ d :: after_) w)
            /\ written data (clock w) d
            /\ createdAt d = createdAt old
            /\ _id d = _id old)
        \/ ((forall o, In o (agents_coll w) -> agentId o <> data_agentId data)
            /\ exists d,
                 run w = (Ok {| Mongo.matchedCount := 0; Mongo.upsertedCount := 1 |},
                          set_next_oid (N.succ (next_oid w))
                            (set_agents (agents_coll w ++ [d]) w))
                 /\ written data (clock w) d
                 /\ createdAt d = clock w))
  /\ (forall e, fst (run w) = Throw e -> exists ix, e = Mongo.DuplicateKey ix)
  /\ creation_stamps
       (firstn (length (agents_coll w)) (agents_coll (after run w)))
     = creation_stamps (agents_coll w).
Proof.
  intros Hr run. unfold run, after. rewrite (upsert_run data w Hr).
  destruct (store_ready_db w Hr) as [h [Hdb Hup]].
  split; [|split; [|split; [|split; [|split]]]].
  - intros Hfree.
    set (d := Agents.set_createdAt (clock w)
                (Agents.set_fields data (clock w)
                   (Mongo.seed (next_oid w) (data_agentId data)))).
    exists d. split; [|split; [|reflexivity]].
    + unfold Mongo.updateOne. rewrite command_up by exact Hup.
      assert (Hnone : Mongo.split_first
                        (fun x => Mongo.key_eqb (agentId x) (data_agentId data))
                        (agents_coll w) = None).
      { apply split_first_none. apply existsb_none. intros o Ho.
        apply key_eqb_neq. apply (Hfree o Ho). }
      rewrite Hnone. fold d.
      rewrite (keys_free_no_violation w data (agents_coll w) d Hfree eq_refl eq_refl).
      reflexivity.
    + unfold written. cbn. repeat split; reflexivity.
  - intros before old after_ Hcoll Hold Hfree.
    exists (Agents.set_fields data (clock w) old).
    split; [|split; [|split; reflexivity]].
    + unfold Mongo.updateOne. rewrite command_up by exact Hup.
      rewrite Hcoll.
      rewrite (split_first_at _ before after_ old).
      * rewrite (keys_free_no_violation w data (before ++ after_) _ Hfree);
          [reflexivity | exact Hold | reflexivity].
      * intros x Hx. apply key_eqb_neq.
        apply (Hfree x). apply in_or_app. left. exact Hx.
      * apply key_eqb_eq. exact Hold.
    + unfold written. cbn. repeat split; try reflexivity. exact Hold.
  - intros e. apply updateOne_throw_unchanged.
  - intros r. apply (upsert_ok_cases data w r Hup).
  - intros e. apply upsert_throw_duplicate. exact Hup.
  - apply updateOne_keeps_creation. intros d. repeat split; reflexivity.
Qed.

Lemma upsert_keyed_by_agentId_witness :
  store_ready (seeded unreachable) = true
  /\ keys_free scheduler (agents_coll (seeded unreachable))
  /\ map agentId (agents_coll (after (Agents.upsert scheduler) (seeded unreachable)))
     = [Some "AGENT001"; Some "AGENT002"; Some "AGENT003"]
  /\ creation_stamps
       (firstn 2 (agents_coll (after (Agents.upsert scheduler) (seeded unreachable))))
     = [(1%N, Some "AGENT001", 1000%Z); (2%N, Some "AGENT002", 1000%Z)].
Proof.
  assert (Hfree : keys_free scheduler (agents_coll (seeded unreachable))).
  { intros o [Ho|[Ho|[]]]; subst o; split; discriminate. }
  split; [reflexivity|]. split; [exact Hfree|].
  destruct (upsert_keyed_by_agentId scheduler (seeded unreachable) eq_refl)
    as [Hinsert [_ [_ [_ [_ Hkept]]]]].
  split.
  - destruct (Hinsert Hfree) as [d [Hrun [Hwritten _]]].
    unfold after. rewrite Hrun. cbn [snd]. cbn.
    destruct Hwritten as [Hid _]. rewrite Hid. reflexivity.
  - exact Hkept.
Defined.

(** C4 as stated fails: a record whose [agentId] is absent is not inserted,
    and a record whose [agentId] is present is not refreshed, when its
    [phoneNumber] belongs to another record; the unique index built by
    [connectDB] makes the driver throw and the store keeps its state. *)
Lemma upsert_phone_clash_counterexample :
  absent (data_agentId intruder) (seeded unreachable)
  /\ fst (Agents.upsert intruder (seeded unreachable))
     = Throw (Mongo.DuplicateKey "phoneNumber_1")
  /\ ~ upsert_inserts intruder (seeded unreachable)
  /\ fst (Agents.upsert moved (tick 500 (seeded unreachable)))
     = Throw (Mongo.DuplicateKey "phoneNumber_1")
  /\ ~ upsert_refreshes moved (tick 500 (seeded unreachable)).
Proof.
  split; [|split; [|split; [|split]]].
  - intros d [Hd|[Hd|[]]]; subst d; discriminate.
  - reflexivity.
  - intros [d [Hin [Hid _]]]. cbn in Hin.
    destruct Hin as [Hd|[Hd|[]]]; subst d; discriminate.
  - reflexivity.
  - intros H.
    specialize (H support_record (or_intror (or_introl eq_refl)) eq_refl).
    discriminate.
Qed.

(* ------------------------------------------------------------------ *)
(** *** Creating agents                                                *)
(* ------------------------------------------------------------------ *)

(** The HTTP route checks the four required fields before it touches the
    store: a request that misses one gets status 400 and changes nothing. *)
Lemma http_create_agent_validates
    (agentId agentName phoneNumber : option string) (agentPrompt : value)
    (active : option bool) (metadata : value) (w : world) :
  agentId = None \/ agentName = None \/ phoneNumber = None \/ agentPrompt = VUndefined ->
  HttpBridge.create_agent agentId agentName phoneNumber agentPrompt active metadata w
  = (Ok (mk_response 400
           (failure "agentId, agentName, phoneNumber, and agentPrompt are required")),
     w).
Proof.
  intros Hmissing. unfold HttpBridge.create_agent, try_catch.
  assert (Hguard : negb (truthy_str agentId) || negb (truthy_str agentName)
                   || negb (truthy_str phoneNumber) || negb (truthy agentPrompt) = true).
  { destruct Hmissing as [H|[H|[H|H]]]; subst; cbn;
      rewrite ?orb_true_r; reflexivity. }
  rewrite Hguard. reflexivity.
Qed.

(** C2, the tool path.  The [create_agent] tool hands its arguments to
    [Agents.upsert] unchecked: called without [agentPrompt] on a connected,
    empty store it answers [success: true] and the store gains a record
    whose prompt is [null], while the HTTP route refuses the same fields
    with status 400 and leaves the store empty. *)
Theorem create_agent_tool_skips_validation :
  agents_coll (connected unreachable) = []
  /\ fst (McpServer.CallTool None "create_agent" (Some promptless) (connected unreachable))
     = Ok (VObj [("success", VBool true);
                 ("message", VStr "Agent AGENT005 created successfully");
                 ("agentId", VStr "AGENT005");
                 ("phoneNumber", VStr "+12025557890")])
  /\ agents_coll
       (after (McpServer.CallTool None "create_agent" (Some promptless))
          (connected unreachable))
     = [mk_agent 1 (Some "AGENT005") (Some "Tech Support Bot") (Some "+12025557890")
          VNull (Some true) (VObj []) 1000 1000]
  /\ HttpBridge.create_agent (Some "AGENT005") (Some "Tech Support Bot")
       (Some "+12025557890") VUndefined None VUndefined (connected unreachable)
     = (Ok (mk_response 400
              (failure "agentId, agentName, phoneNumber, and agentPrompt are required")),
        connected unreachable).
Proof.
  split; [reflexivity|]. split; [reflexivity|]. split; [reflexivity|].
  apply http_create_agent_validates. right. right. right. reflexivity.
Qed.

(* ------------------------------------------------------------------ *)
(** *** The connection handle                                          *)
(* ------------------------------------------------------------------ *)

(** Once the handle is set, [connectDB] returns it and does nothing: no
    new connection, no index build. *)
Lemma connectDB_idempotent (w : world) (h : nat) :
  db w = Some h -> connectDB w = (Ok h, w).
Proof. intros Hdb. unfold connectDB, bind, gets. rewrite Hdb. reflexivity. Qed.

(** [getDB] throws exactly while the handle is unset. *)
Lemma getDB_throws_iff (w : world) :
  is_ok (fst (getDB w)) = false <-> db w = None.
Proof.
  unfold getDB, bind, gets. cbn. destruct (db w); cbn; split; congruence.
Qed.

Lemma closeDB_clears (w : world) (c : nat) :
  client w = Some c ->
  db (after closeDB w) = None /\ client (after closeDB w) = None.
Proof.
  intros Hc. unfold after, closeDB, bind, gets. cbn. rewrite Hc. cbn. split; reflexivity.
Qed.

(** C10, where the code departs from it.  On a reachable deployment whose
    collection already holds two records with one phone number,
    [connectDB] fails while building the unique index, but it has stored
    the handle before: [getDB] then returns instead of throwing although
    no [connectDB] call has succeeded, and a second [connectDB] call
    returns the handle at once, without the unique index on
    [phoneNumber]. *)
Theorem connectDB_failure_leaves_handle :
  db clashing = None
  /\ connectDB clashing = (Throw (Mongo.DuplicateKey "phoneNumber_1"), half_open)
  /\ getDB half_open = (Ok 0, half_open)
  /\ connectDB half_open = (Ok 0, half_open)
  /\ unique_phoneNumber half_open = false.
Proof.
  split; [reflexivity|]. split; [exact half_open_by_run|].
  split; [apply getDB_ready; reflexivity|].
  split; [apply connectDB_idempotent; reflexivity | reflexivity].
Qed.

(* ------------------------------------------------------------------ *)
(** *** The proxy routes of the HTTP facade                            *)
(* ------------------------------------------------------------------ *)

Lemma append_if_chosen (k : string) (v : option string) (p : URLSearchParams) :
  append_if k v p = p ++ chosen [(k, v)].
Proof.
  unfold append_if, chosen. cbn.
  destruct v as [x|]; cbn; [|rewrite app_nil_r; reflexivity].
  destruct (x =? "")%string; cbn; [rewrite app_nil_r|]; reflexivity.
Qed.

Lemma availability_params (a d n i sp : option string) :
  append_if "specialization" sp
    (append_if "doctorId" i
       (append_if "doctorName" n
          (append_if "date" d
             (append_if "assignedPhoneNumber" a []))))
  = chosen [("assignedPhoneNumber", a); ("date", d); ("doctorName", n);
            ("doctorId", i); ("specialization", sp)].
Proof.
  rewrite !append_if_chosen.
  unfold chosen. cbn [flat_map fst snd]. rewrite !app_nil_r. cbn [app].
  rewrite <- !app_assoc. reflexivity.
Qed.


Section ProxyRoutes.

Variable env : option string.
Variable w : world.
Variables (st : Z) (data : value).








End ProxyRoutes.




(* ================================================================== *)
(** ** Further properties of the store adapter                        *)
(* ================================================================== *)

(** A collection has no two records with one key exactly when its list of
    keys has no repetition. *)
Lemma has_dup_NoDup (key : agent -> option string) (l : list agent) :
  Mongo.has_dup key l = false <-> NoDup (map key l).
Proof.
  induction l as [|d l IH]; cbn.
  - split; [constructor | reflexivity].
  - rewrite orb_false_iff, IH, NoDup_cons_iff, existsb_none, in_map_iff.
    split; intros [Hd Hl]; split; try exact Hl.
    + intros [o [Hk Ho]]. specialize (Hd o Ho). apply key_eqb_neq in Hd. contradiction.
    + intros o Ho. apply key_eqb_neq. intros Hk. apply Hd. exists o. split; assumption.
Qed.

Lemma existsb_key_not_in (key : agent -> option string) (k : option string)
    (l : list agent) :
  existsb (fun o => Mongo.key_eqb (key o) k) l = false <-> ~ In k (map key l).
Proof.
  rewrite existsb_none, in_map_iff. split.
  - intros H [o [Hk Ho]]. specialize (H o Ho). apply key_eqb_neq in H. contradiction.
  - intros H o Ho. apply key_eqb_neq. intros Hk. apply H. exists o. split; assumption.
Qed.

(** First connection.  On a reachable deployment whose collection has no
    two records with one [agentId] or one [phoneNumber], [connectDB] run
    with the handle unset opens one connection, issues the three index
    builds, publishes the handle and returns it; the collection is not
    touched and afterwards the store answers and respects both unique
    indexes. *)
Theorem connectDB_initializes (w : world) :
  db w = None ->
  mongo_up w = true ->
  Mongo.has_dup agentId (agents_coll w) = false ->
  Mongo.has_dup phoneNumber (agents_coll w) = false ->
  connectDB w = (Ok (connections w), opened w)
  /\ getDB (opened w) = (Ok (connections w), opened w)
  /\ store_ready (opened w) = true
  /\ well_keyed (opened w).
Proof.
  intros Hdb Hup Hid Hphone.
  split; [|split; [reflexivity | split; [exact Hup|]]].
  - unfold connectDB, Mongo.createIndex, Mongo.command, try_catch, bind, gets, modify, ret.
    rewrite Hdb. cbn. rewrite Hup.
    destruct (unique_agentId w) eqn:Ha, (unique_phoneNumber w) eqn:Hp;
      repeat (progress (cbn; rewrite ?Hup, ?Hid, ?Hphone, ?Ha, ?Hp)); reflexivity.
  - unfold well_keyed, opened. cbn. auto.
Qed.

Lemma connectDB_initializes_witness :
  connectDB (boot unreachable) = (Ok 0, opened (boot unreachable))
  /\ well_keyed (opened (boot unreachable)).
Proof.
  destruct (connectDB_initializes (boot unreachable) eq_refl eq_refl eq_refl eq_refl)
    as [Hrun [_ [_ Hkeys]]].
  split; [exact Hrun | exact Hkeys].
Defined.

(** Unreachable deployment.  With the handle unset and the deployment
    down, [connectDB] throws the driver's network error and leaves the
    handle unset (only the client object is kept), so [getDB] still throws;
    once the deployment is back the next [connectDB] call connects. *)
Theorem connectDB_unreachable_then_retry (w : world) :
  db w = None ->
  mongo_up w = false ->
  let failed := set_client (Some (connections w)) w in
  connectDB w = (Throw Mongo.MongoNetworkError, failed)
  /\ getDB failed = (Throw not_initialized, failed)
  /\ (Mongo.has_dup agentId (agents_coll w) = false ->
      Mongo.has_dup phoneNumber (agents_coll w) = false ->
      fst (connectDB (set_mongo_up true failed)) = Ok (connections w)
      /\ store_ready (after connectDB (set_mongo_up true failed)) = true).
Proof.
  intros Hdb Hup failed.
  split; [|split].
  - unfold connectDB, Mongo.createIndex, Mongo.command, try_catch, bind, gets, modify, ret.
    rewrite Hdb. cbn. rewrite Hup. reflexivity.
  - apply getDB_unset. exact Hdb.
  - intros Hid Hphone.
    destruct (connectDB_initializes (set_mongo_up true failed)) as [Hrun [_ [Hready _]]];
      try assumption; try reflexivity.
    unfold after. rewrite Hrun. split; [reflexivity | exact Hready].
Qed.

Lemma connectDB_unreachable_then_retry_witness :
  connectDB (set_mongo_up false (boot unreachable))
  = (Throw Mongo.MongoNetworkError,
     set_client (Some 0) (set_mongo_up false (boot unreachable))).
Proof.
  destruct (connectDB_unreachable_then_retry (set_mongo_up false (boot unreachable))
              eq_refl eq_refl) as [Hrun _].
  exact Hrun.
Defined.

Lemma NoDup_insert_middle {A : Type} (x : A) (l1 l2 : list A) :
  NoDup (l1 ++ l2) -> ~ In x (l1 ++ l2) -> NoDup (l1 ++ x :: l2).
Proof.
  intros Hnd Hx. apply (Permutation_NoDup (Permutation_middle l1 l2 x)).
  constructor; assumption.
Qed.

Lemma violates_none (w : world) (others : list agent) (d : agent) :
  unique_agentId w = true -> unique_phoneNumber w = true ->
  Mongo.violates w others d = None ->
  ~ In (agentId d) (map agentId others) /\ ~ In (phoneNumber d) (map phoneNumber others).
Proof.
  intros Ha Hp. unfold Mongo.violates. rewrite Ha, Hp. cbn.
  destruct (existsb (fun o => Mongo.key_eqb (agentId o) (agentId d)) others) eqn:E1;
    [discriminate|].
  destruct (existsb (fun o => Mongo.key_eqb (phoneNumber o) (phoneNumber d)) others) eqn:E2;
    [discriminate|].
  intros _. split; apply existsb_key_not_in; assumption.
Qed.

(** What a successful [updateOne] did: it rewrote the first match in place,
    or appended the upserted document, or (without [upsert]) found nothing. *)
Lemma updateOne_ok_shape (aid : option string) (set : agent -> agent)
    (ins : option (agent -> agent)) (w w' : world) (r : Mongo.update_result) :
  Mongo.updateOne aid set ins w = (Ok r, w') ->
  reachability w' = reachability w
  /\ unique_agentId w' = unique_agentId w
  /\ unique_phoneNumber w' = unique_phoneNumber w
  /\ ((exists before d after_,
         agents_coll w = before ++ d :: after_
         /\ agentId d = aid
         /\ Mongo.violates w (before ++ after_) (set d) = None
         /\ agents_coll w' = before ++ set d :: after_
         /\ r = {| Mongo.matchedCount := 1; Mongo.upsertedCount := 0 |})
      \/ (exists f,
            ins = Some f
            /\ (forall o, In o (agents_coll w) -> agentId o <> aid)
            /\ Mongo.violates w (agents_coll w) (f (set (Mongo.seed (next_oid w) aid)))
               = None
            /\ agents_coll w' = agents_coll w ++ [f (set (Mongo.seed (next_oid w) aid))]
            /\ r = {| Mongo.matchedCount := 0; Mongo.upsertedCount := 1 |})
      \/ (ins = None
          /\ (forall o, In o (agents_coll w) -> agentId o <> aid)
          /\ w' = w
          /\ r = {| Mongo.matchedCount := 0; Mongo.upsertedCount := 0 |})).
Proof.
  unfold Mongo.updateOne, Mongo.command.
  destruct (mongo_up w); [|discriminate].
  destruct (Mongo.split_first _ (agents_coll w)) as [[[before d] after_]|] eqn:Hs.
  - destruct (Mongo.violates w (before ++ after_) (set d)) eqn:Hv; [discriminate|].
    intros H. inversion H; subst. clear H.
    apply split_first_some in Hs. destruct Hs as [Hl [Hd _]].
    repeat split; try reflexivity.
    left. exists before, d, after_. repeat split; auto. apply key_eqb_eq. exact Hd.
  - assert (Habsent : forall o, In o (agents_coll w) -> agentId o <> aid).
    { apply split_first_none in Hs. intros o Ho. apply key_eqb_neq.
      revert o Ho. apply existsb_none. exact Hs. }
    destruct ins as [f|].
    + destruct (Mongo.violates w (agents_coll w) _) eqn:Hv; [discriminate|].
      intros H. inversion H; subst. clear H.
      repeat split; try reflexivity.
      right. left. exists f. repeat split; auto.
    + intros H. inversion H; subst. clear H.
      repeat split; try reflexivity.
      right. right. repeat split; auto.
Qed.

Lemma updateOne_keeps_keys (aid : option string) (set : agent -> agent)
    (ins : option (agent -> agent)) (w : world) :
  (forall d, agentId (set d) = agentId d) ->
  (forall f d, ins = Some f ->
     agentId (f d) = agentId d /\ phoneNumber (f d) = phoneNumber d) ->
  well_keyed w -> well_keyed (snd (Mongo.updateOne aid set ins w)).
Proof.
  intros Hset Hins Hkeys.
  destruct (Mongo.updateOne aid set ins w) as [[r|e] w'] eqn:Hrun; cbn [snd].
  2: { pose proof (updateOne_throw_unchanged aid set ins w e) as Hsame.
       rewrite Hrun in Hsame. cbn in Hsame. rewrite (Hsame eq_refl). exact Hkeys. }
  destruct Hkeys as [Ha [Hp [Hid Hphone]]].
  apply has_dup_NoDup in Hid. apply has_dup_NoDup in Hphone.
  destruct (updateOne_ok_shape aid set ins w w' r Hrun) as [_ [Ha' [Hp' Hshape]]].
  unfold well_keyed. rewrite Ha', Hp'. split; [exact Ha|]. split; [exact Hp|].
  rewrite !has_dup_NoDup.
  destruct Hshape as [[before [d [after_ [Hcoll [_ [Hv [Hcoll' _]]]]]]]
                     | [[f [Hf [_ [Hv [Hcoll' _]]]]] | [_ [_ [Hsame _]]]]].
  - rewrite Hcoll in Hid, Hphone. rewrite Hcoll'.
    rewrite !map_app in Hid, Hphone. rewrite !map_app. cbn [map] in *.
    destruct (violates_none w _ _ Ha Hp Hv) as [_ Hfree]. rewrite map_app in Hfree.
    split.
    + rewrite Hset. exact Hid.
    + apply NoDup_insert_middle; [exact (NoDup_remove_1 _ _ _ Hphone) | exact Hfree].
  - rewrite Hcoll'. rewrite !map_app. cbn [map].
    destruct (violates_none w _ _ Ha Hp Hv) as [Hfa Hfp].
    split; apply NoDup_insert_middle; rewrite app_nil_r; assumption.
  - subst w'. split; assumption.
Qed.

(** Unique keys are an invariant.  Once the two unique indexes exist and
    the collection respects them, every writing operation of the
    repository ([upsert], [delete], [toggleStatus]) leaves a collection
    that still has no two records with one [agentId] or one [phoneNumber],
    whether the operation succeeds or throws. *)
Theorem unique_keys_preserved (w : world) :
  well_keyed w ->
  (forall data, well_keyed (after (Agents.upsert data) w))
  /\ (forall id, well_keyed (after (Agents.delete id) w))
  /\ (forall id a, well_keyed (after (Agents.toggleStatus id a) w)).
Proof.
  intros Hkeys. unfold after.
  split; [|split].
  - intros data. unfold Agents.upsert, getDB, new_Date, bind, gets, ret, throw. cbn.
    destruct (db w); cbn; [|exact Hkeys].
    apply updateOne_keeps_keys; [reflexivity | | exact Hkeys].
    intros f d Hf. inversion Hf; subst. split; reflexivity.
  - intros id. unfold Agents.delete, getDB, bind, gets, ret, throw, Mongo.deleteOne,
      Mongo.command. cbn.
    destruct (db w); cbn; [|exact Hkeys].
    destruct (mongo_up w); cbn; [|exact Hkeys].
    destruct (Mongo.split_first _ (agents_coll w)) as [[[before d] after_]|] eqn:Hs;
      cbn; [|exact Hkeys].
    apply split_first_some in Hs. destruct Hs as [Hcoll _].
    destruct Hkeys as [Ha [Hp [Hid Hphone]]].
    apply has_dup_NoDup in Hid. apply has_dup_NoDup in Hphone.
    rewrite Hcoll, map_app in Hid, Hphone. cbn [map] in Hid, Hphone.
    unfold well_keyed. cbn. rewrite !has_dup_NoDup, !map_app.
    repeat split; try assumption; eapply NoDup_remove_1; eassumption.
  - intros id a. unfold Agents.toggleStatus, getDB, new_Date, bind, gets, ret, throw. cbn.
    destruct (db w); cbn; [|exact Hkeys].
    apply updateOne_keeps_keys; [reflexivity | discriminate | exact Hkeys].
Qed.

Lemma unique_keys_preserved_witness :
  well_keyed (seeded unreachable)
  /\ well_keyed (after (Agents.upsert moved) (seeded unreachable))
  /\ well_keyed (after (Agents.upsert scheduler) (seeded unreachable)).
Proof.
  assert (Hkeys : well_keyed (seeded unreachable)) by (repeat split).
  destruct (unique_keys_preserved (seeded unreachable) Hkeys) as [Hupsert _].
  split; [exact Hkeys|]. split; apply Hupsert.
Defined.

Lemma find_by_unique_key (key : agent -> option string) (l : list agent) (d : agent)
    (k : option string) :
  NoDup (map key l) -> In d l -> key d = k ->
  find (fun o => Mongo.key_eqb (key o) k) l = Some d.
Proof.
  induction l as [|x l IH]; intros Hnd Hin Hk; [contradiction|].
  cbn in Hnd. apply NoDup_cons_iff in Hnd. destruct Hnd as [Hx Hl].
  cbn [find]. destruct Hin as [Heq|Hin].
  - subst x. rewrite (proj2 (key_eqb_eq (key d) k) Hk). reflexivity.
  - destruct (Mongo.key_eqb (key x) k) eqn:E.
    + exfalso. apply key_eqb_eq in E. apply Hx. rewrite E, <- Hk. apply in_map. exact Hin.
    + apply IH; assumption.
Qed.

Lemma find_absent_key (key : agent -> option string) (l : list agent) (k : option string) :
  ~ In k (map key l) -> find (fun o => Mongo.key_eqb (key o) k) l = None.
Proof.
  intros Hk. apply existsb_key_not_in in Hk.
  destruct (find _ l) as [d|] eqn:Hf; [|reflexivity].
  apply find_some in Hf. destruct Hf as [Hin Hd].
  rewrite existsb_none in Hk. rewrite (Hk d Hin) in Hd. discriminate.
Qed.

Lemma store_ready_reachability (w w' : world) :
  reachability w' = reachability w -> store_ready w' = store_ready w.
Proof.
  unfold reachability, store_ready. intros H. inversion H as [[Hdb Hup]].
  rewrite Hup. destruct (db w), (db w'); try discriminate; reflexivity.
Qed.

Lemma getByAgentId_ready (id : option string) (w : world) :
  store_ready w = true ->
  Agents.getByAgentId id w
  = (Ok (find (fun d => Mongo.key_eqb (agentId d) id) (agents_coll w)), w).
Proof.
  intros Hr. destruct (store_ready_db w Hr) as [h [Hdb Hup]].
  unfold Agents.getByAgentId, bind. rewrite (getDB_ready w h Hdb).
  unfold Mongo.findOne. rewrite command_up by exact Hup. reflexivity.
Qed.

Lemma upsert_ok_ready (data : agent_data) (w : world) (r : Mongo.update_result) :
  fst (Agents.upsert data w) = Ok r -> store_ready w = true.
Proof.
  unfold Agents.upsert, getDB, new_Date, bind, gets, ret, throw, store_ready,
    Mongo.updateOne, Mongo.command. cbn.
  destruct (db w); cbn; [|discriminate].
  destruct (mongo_up w); cbn; [reflexivity | discriminate].
Qed.

(** Insert/lookup round trip.  On a store that respects its unique
    indexes, after an [upsert] that succeeded both [getByAgentId] with the
    input's [agentId] and [getByPhoneNumber] with the input's [phoneNumber]
    return one and the same record, and that record carries the input's
    fields (with [undefined] stored as [null]) and the time of the call as
    [updatedAt]. *)
Theorem upsert_then_lookup (data : agent_data) (w : world) (r : Mongo.update_result) :
  well_keyed w ->
  fst (Agents.upsert data w) = Ok r ->
  let w' := after (Agents.upsert data) w in
  exists d,
    written data (clock w) d
    /\ Agents.getByAgentId (data_agentId data) w' = (Ok (Some d), w')
    /\ Agents.getByPhoneNumber (data_phoneNumber data) w' = (Ok (Some d), w').
Proof.
  intros Hkeys Hok w'.
  pose proof (upsert_ok_ready data w r Hok) as Hready.
  destruct (unique_keys_preserved w Hkeys) as [Hpres _].
  specialize (Hpres data). fold w' in Hpres.
  destruct Hpres as [_ [_ [Hid' Hphone']]].
  apply has_dup_NoDup in Hid'. apply has_dup_NoDup in Hphone'.
  subst w'. unfold after in *.
  rewrite (upsert_run data w Hready) in *.
  destruct (Mongo.updateOne _ _ _ w) as [o w1] eqn:Hrun. cbn [fst snd] in *. subst o.
  destruct (updateOne_ok_shape _ _ _ _ _ _ Hrun) as [Hreach [_ [_ Hshape]]].
  assert (Hready1 : store_ready w1 = true)
    by (rewrite (store_ready_reachability w w1 Hreach); exact Hready).
  assert (Hfound : exists d, written data (clock w) d /\ In d (agents_coll w1)).
  { destruct Hshape as [[before [old [after_ [_ [Hold [_ [Hcoll' _]]]]]]]
                       | [[f [Hf [_ [_ [Hcoll' _]]]]] | [Hnone _]]].
    - exists (Agents.set_fields data (clock w) old). split.
      + unfold written. cbn. repeat split; try reflexivity. exact Hold.
      + rewrite Hcoll'. apply in_or_app. right. left. reflexivity.
    - inversion Hf; subst f.
      exists (Agents.set_createdAt (clock w)
                (Agents.set_fields data (clock w)
                   (Mongo.seed (next_oid w) (data_agentId data)))).
      split.
      + unfold written. cbn. repeat split; reflexivity.
      + rewrite Hcoll'. apply in_or_app. right. left. reflexivity.
    - discriminate. }
  destruct Hfound as [d [Hwritten Hin]]. exists d.
  split; [exact Hwritten|].
  destruct Hwritten as [Hid [_ [Hphone _]]].
  rewrite (getByAgentId_ready _ w1 Hready1), (getByPhoneNumber_ready _ w1 Hready1).
  rewrite (find_by_unique_key agentId _ d _ Hid' Hin Hid).
  rewrite (find_by_unique_key phoneNumber _ d _ Hphone' Hin Hphone).
  split; reflexivity.
Qed.

Lemma upsert_then_lookup_witness :
  well_keyed (seeded unreachable)
  /\ exists d,
       written scheduler 1000 d
       /\ Agents.getByPhoneNumber (Some "+12025559012")
            (after (Agents.upsert scheduler) (seeded unreachable))
          = (Ok (Some d), after (Agents.upsert scheduler) (seeded unreachable)).
Proof.
  assert (Hkeys : well_keyed (seeded unreachable)) by (repeat split).
  split; [exact Hkeys|].
  destruct (upsert_then_lookup scheduler (seeded unreachable)
              {| Mongo.matchedCount := 0; Mongo.upsertedCount := 1 |} Hkeys eq_refl)
    as [d [Hwritten [_ Hphone]]].
  exists d. split; [exact Hwritten | exact Hphone].
Defined.

(** Delete/lookup round trip.  While no two records share an [agentId],
    after [delete(agentId)] a lookup by that [agentId] finds nothing and a
    second [delete] of it removes nothing and changes nothing. *)
Theorem delete_then_lookup (id : option string) (w : world) :
  store_ready w = true ->
  Mongo.has_dup agentId (agents_coll w) = false ->
  let w' := after (Agents.delete id) w in
  Agents.getByAgentId id w' = (Ok None, w')
  /\ Agents.delete id w' = (Ok {| Mongo.deletedCount := 0 |}, w').
Proof.
  intros Hready Hdup w'.
  apply has_dup_NoDup in Hdup.
  assert (Hshape : store_ready w' = true /\ ~ In id (map agentId (agents_coll w'))).
  { subst w'. unfold after. rewrite (delete_ready id w Hready).
    destruct (Mongo.split_first _ (agents_coll w)) as [[[before d] after_]|] eqn:Hs;
      cbn [snd].
    - apply split_first_some in Hs. destruct Hs as [Hcoll [Hd _]].
      apply key_eqb_eq in Hd. split; [exact Hready|].
      rewrite Hcoll, map_app in Hdup. cbn [map] in Hdup.
      apply NoDup_remove_2 in Hdup. cbn. rewrite map_app, <- Hd. exact Hdup.
    - split; [exact Hready|]. apply existsb_key_not_in.
      apply split_first_none. exact Hs. }
  destruct Hshape as [Hready' Hgone].
  split.
  - rewrite (getByAgentId_ready id w' Hready'), (find_absent_key agentId _ id Hgone).
    reflexivity.
  - rewrite (delete_ready id w' Hready').
    apply existsb_key_not_in in Hgone. apply split_first_none in Hgone.
    rewrite Hgone. reflexivity.
Qed.

Lemma delete_then_lookup_witness :
  store_ready (seeded unreachable) = true
  /\ Agents.getByAgentId (Some "AGENT001")
       (after (Agents.delete (Some "AGENT001")) (seeded unreachable))
     = (Ok None, after (Agents.delete (Some "AGENT001")) (seeded unreachable)).
Proof.
  split; [reflexivity|].
  destruct (delete_then_lookup (Some "AGENT001") (seeded unreachable) eq_refl eq_refl)
    as [Hget _].
  exact Hget.
Defined.

Lemma violates_same_keys (w : world) (before after_ : list agent) (d d' : agent) :
  Mongo.has_dup agentId (before ++ d :: after_) = false ->
  Mongo.has_dup phoneNumber (before ++ d :: after_) = false ->
  agentId d' = agentId d -> phoneNumber d' = phoneNumber d ->
  Mongo.violates w (before ++ after_) d' = None.
Proof.
  intros Hid Hphone Ha Hp.
  apply has_dup_NoDup in Hid. apply has_dup_NoDup in Hphone.
  rewrite map_app in Hid, Hphone. cbn [map] in Hid, Hphone.
  apply NoDup_remove_2 in Hid. apply NoDup_remove_2 in Hphone.
  rewrite <- map_app in Hid, Hphone.
  apply existsb_key_not_in in Hid. apply existsb_key_not_in in Hphone.
  unfold Mongo.violates. rewrite Ha, Hp, Hid, Hphone, !andb_false_r. reflexivity.
Qed.

Lemma toggleStatus_run (id : option string) (a : option bool) (w : world) :
  store_ready w = true ->
  well_keyed w ->
  Agents.toggleStatus id a w
  = match Mongo.split_first (fun d => Mongo.key_eqb (agentId d) id) (agents_coll w) with
    | Some (before, d, after_) =>
        (Ok {| Mongo.matchedCount := 1; Mongo.upsertedCount := 0 |},
         set_agents (before ++ Agents.set_active a (clock w) d :: after_) w)
    | None => (Ok {| Mongo.matchedCount := 0; Mongo.upsertedCount := 0 |}, w)
    end.
Proof.
  intros Hr [_ [_ [Hid Hphone]]]. destruct (store_ready_db w Hr) as [h [Hdb Hup]].
  unfold Agents.toggleStatus, bind. rewrite (getDB_ready w h Hdb).
  unfold new_Date, gets. unfold Mongo.updateOne. rewrite command_up by exact Hup.
  destruct (Mongo.split_first _ (agents_coll w)) as [[[before d] after_]|] eqn:Hs;
    [|reflexivity].
  apply split_first_some in Hs. destruct Hs as [Hcoll _]. rewrite Hcoll in Hid, Hphone.
  rewrite (violates_same_keys w before after_ d (Agents.set_active a (clock w) d)
             Hid Hphone eq_refl eq_refl).
  reflexivity.
Qed.

(** Status toggle.  On a ready store that respects its unique indexes,
    [toggleStatus(agentId, active)] never inserts: when no record has the
    [agentId] it reports no match and changes nothing; otherwise it sets
    [active] and [updatedAt] of that record and leaves every other record
    and the number of records as they were.  The [toggle_agent_status] tool
    reports [success] as "a record matched", while its message says
    "activated" or "deactivated" from the argument alone. *)
Theorem toggleStatus_sets_flag (env : option string) (a : Args.t) (w : world) :
  store_ready w = true ->
  well_keyed w ->
  let id := Args.agentId a in
  let held := existsb (fun d => Mongo.key_eqb (agentId d) id) (agents_coll w) in
  let w' := after (Agents.toggleStatus id (Args.active a)) w in
  fst (Agents.toggleStatus id (Args.active a) w)
  = Ok {| Mongo.matchedCount := if held then 1 else 0; Mongo.upsertedCount := 0 |}
  /\ (held = false -> w' = w)
  /\ (forall d, In d (agents_coll w') -> agentId d = id ->
        active d = Args.active a /\ updatedAt d = clock w)
  /\ (forall d, agentId d <> id -> (In d (agents_coll w') <-> In d (agents_coll w)))
  /\ length (agents_coll w') = length (agents_coll w)
  /\ McpServer.CallTool env "toggle_agent_status" (Some a) w
     = (Ok (VObj [("success", VBool held);
                  ("message",
                   VStr ("Agent " ++ interp id ++ " "
                         ++ (if McpServer.flag (Args.active a)
                             then "activated" else "deactivated")))]),
        w').
Proof.
  intros Hr Hkeys id held w'. subst w'. unfold after.
  assert (Htool : forall r w1, Agents.toggleStatus id (Args.active a) w = (Ok r, w1) ->
            McpServer.CallTool env "toggle_agent_status" (Some a) w
            = (Ok (VObj [("success", VBool (0 <? Mongo.matchedCount r)%nat);
                         ("message",
                          VStr ("Agent " ++ interp id ++ " "
                                ++ (if McpServer.flag (Args.active a)
                                    then "activated" else "deactivated")))]), w1)).
  { intros r w1 Hd. unfold McpServer.CallTool, try_catch. cbn.
    unfold McpServer.toggle_agent_status, bind, McpServer.the_args, ret.
    fold id. rewrite Hd. reflexivity. }
  rewrite (toggleStatus_run id (Args.active a) w Hr Hkeys) in *.
  destruct Hkeys as [_ [_ [Hid _]]]. apply has_dup_NoDup in Hid.
  destruct (Mongo.split_first _ (agents_coll w)) as [[[before d] after_]|] eqn:Hs.
  - assert (Hheld : held = true).
    { destruct held eqn:E; [reflexivity|]. apply split_first_none in E. congruence. }
    apply split_first_some in Hs. destruct Hs as [Hcoll [Hd _]]. apply key_eqb_eq in Hd.
    rewrite Hheld, (Htool _ _ eq_refl). cbn [fst snd]. cbn [agents_coll set_agents].
    rewrite Hcoll in Hid. rewrite map_app in Hid. cbn [map] in Hid.
    pose proof (NoDup_remove_2 _ _ _ Hid) as Hothers. rewrite <- map_app in Hothers.
    split; [reflexivity|]. split; [discriminate|]. split; [|split; [|split]].
    + intros x Hx Hxid. apply in_app_or in Hx. destruct Hx as [Hx|[Hx|Hx]].
      * exfalso. apply Hothers. rewrite Hd, <- Hxid. apply in_map.
        apply in_or_app. left. exact Hx.
      * subst x. split; reflexivity.
      * exfalso. apply Hothers. rewrite Hd, <- Hxid. apply in_map.
        apply in_or_app. right. exact Hx.
    + intros x Hx. rewrite Hcoll. rewrite !in_app_iff. cbn [In].
      split; intros [H|[H|H]]; auto; subst x; exfalso; apply Hx; cbn; exact Hd.
    + rewrite Hcoll. rewrite !length_app. reflexivity.
    + reflexivity.
  - apply split_first_none in Hs. fold held in Hs.
    rewrite Hs, (Htool _ _ eq_refl). cbn [fst snd].
    split; [reflexivity|]. split; [reflexivity|]. split; [|split; [|split]].
    + intros x Hx Hxid. exfalso. unfold held in Hs. rewrite existsb_none in Hs.
      specialize (Hs x Hx). apply key_eqb_neq in Hs. contradiction.
    + reflexivity.
    + reflexivity.
    + reflexivity.
Qed.

Lemma toggleStatus_sets_flag_witness :
  store_ready (seeded unreachable) = true
  /\ McpServer.CallTool None "toggle_agent_status" (Some gone) (seeded unreachable)
     = (Ok (VObj [("success", VBool false);
                  ("message", VStr "Agent AGENT404 deactivated")]),
        seeded unreachable).
Proof.
  assert (Hkeys : well_keyed (seeded unreachable)) by (repeat split).
  split; [reflexivity|].
  destruct (toggleStatus_sets_flag None gone (seeded unreachable) eq_refl Hkeys)
    as [_ [Hsame [_ [_ [_ Htool]]]]].
  rewrite Htool. rewrite (Hsame eq_refl). reflexivity.
Defined.

(** No store, no effect.  While the handle is unset or the deployment is
    down, each of the seven repository operations throws (the
    "not initialized" error without a handle, the driver's network error
    otherwise) and leaves the world exactly as it was. *)
Theorem repository_needs_store (w : world) :
  store_ready w = false ->
  (forall data, Agents.upsert data w = (Throw (store_error w), w))
  /\ (forall id, Agents.getByAgentId id w = (Throw (store_error w), w))
  /\ (forall phone, Agents.getByPhoneNumber phone w = (Throw (store_error w), w))
  /\ Agents.getAllActive w = (Throw (store_error w), w)
  /\ (forall skip limit, Agents.getAll skip limit w = (Throw (store_error w), w))
  /\ (forall id, Agents.delete id w = (Throw (store_error w), w))
  /\ (forall id a, Agents.toggleStatus id a w = (Throw (store_error w), w)).
Proof.
  unfold store_ready, store_error. intros Hr.
  unfold Agents.upsert, Agents.getByAgentId, Agents.getByPhoneNumber, Agents.getAllActive,
    Agents.getAll, Agents.delete, Agents.toggleStatus, Mongo.updateOne, Mongo.findOne,
    Mongo.find_toArray, Mongo.countDocuments, Mongo.deleteOne, Mongo.command,
    getDB, new_Date, bind, gets, ret, throw.
  cbn. destruct (db w); cbn; [rewrite Hr|]; repeat split.
Qed.

Lemma repository_needs_store_witness :
  Agents.upsert sales (boot unreachable) = (Throw not_initialized, boot unreachable)
  /\ Agents.getAllActive (set_mongo_up false (seeded unreachable))
     = (Throw Mongo.MongoNetworkError, set_mongo_up false (seeded unreachable)).
Proof.
  destruct (repository_needs_store (boot unreachable) eq_refl) as [Hupsert _].
  destruct (repository_needs_store (set_mongo_up false (seeded unreachable)) eq_refl)
    as [_ [_ [_ [Hactive _]]]].
  split; [apply Hupsert | exact Hactive].
Defined.



Lemma firstn_add {A : Type} (n m : nat) (l : list A) :
  firstn (n + m) l = firstn n l ++ firstn m (skipn n l).
Proof.
  revert l. induction n as [|n IH]; intros l; [reflexivity|].
  destruct l as [|x l]; cbn.
  - rewrite firstn_nil. reflexivity.
  - rewrite IH. reflexivity.
Qed.

Lemma getAll_ready (skip limit : nat) (w : world) :
  store_ready w = true ->
  Agents.getAll skip limit w
  = (Ok {| Agents.page_agents := Agents.page skip limit (agents_coll w);
           Agents.page_total := length (agents_coll w);
           Agents.page_skip := skip;
           Agents.page_limit := limit |}, w).
Proof.
  intros Hr. destruct (store_ready_db w Hr) as [h [Hdb Hup]].
  unfold Agents.getAll, bind. rewrite (getDB_ready w h Hdb).
  unfold Mongo.countDocuments. rewrite command_up by exact Hup.
  unfold gets at 1. cbn. rewrite command_up by exact Hup. reflexivity.
Qed.

(** Pagination.  On a ready store [getAll(skip, limit)] changes nothing and
    returns the total number of records together with a page that is a
    contiguous part of the collection: with a positive limit the page holds
    [min limit (total - skip)] records, a limit of 0 returns everything
    after the first [skip] records, a [skip] at or beyond the end returns
    the empty page, and two consecutive pages of [limit] records make up
    the page of [2 * limit] records. *)
Theorem getAll_pages (skip limit : nat) (w : world) :
  store_ready w = true ->
  exists pg,
    Agents.getAll skip limit w = (Ok pg, w)
    /\ Agents.page_total pg = length (agents_coll w)
    /\ (exists before_ after_,
          agents_coll w = before_ ++ Agents.page_agents pg ++ after_
          /\ length before_ = min skip (length (agents_coll w)))
    /\ (limit <> 0 ->
        length (Agents.page_agents pg) = min limit (length (agents_coll w) - skip))
    /\ (limit = 0 -> Agents.page_agents pg = skipn skip (agents_coll w))
    /\ (length (agents_coll w) <= skip -> Agents.page_agents pg = [])
    /\ (limit <> 0 ->
        Agents.page_agents pg ++ Agents.page (skip + limit) limit (agents_coll w)
        = Agents.page skip (limit + limit) (agents_coll w)).
Proof.
  intros Hr. eexists. split; [apply getAll_ready; exact Hr|]. cbn.
  set (coll := agents_coll w).
  split; [reflexivity|]. split; [|split; [|split; [|split]]].
  - exists (firstn skip coll).
    destruct limit as [|n]; cbn [Agents.page].
    + exists []. rewrite app_nil_r, firstn_skipn, length_firstn. split; reflexivity.
    + exists (skipn (S n) (skipn skip coll)).
      rewrite (firstn_skipn (S n)), firstn_skipn, length_firstn. split; reflexivity.
  - intros Hl. destruct limit as [|n]; [contradiction|]. cbn [Agents.page].
    rewrite length_firstn, length_skipn. reflexivity.
  - intros Hl. subst limit. reflexivity.
  - intros Hlen. destruct limit as [|n]; cbn [Agents.page];
      rewrite (skipn_all2 _ Hlen); [reflexivity | apply firstn_nil].
  - intros Hl. destruct limit as [|n]; [contradiction|].
    cbn [Agents.page plus]. change (S (n + S n)) with (S n + S n).
    rewrite firstn_add, skipn_skipn. rewrite (Nat.add_comm skip (S n)). reflexivity.
Qed.

Lemma getAll_pages_witness :
  store_ready (seeded unreachable) = true
  /\ exists pg,
       Agents.getAll 1 1 (seeded unreachable) = (Ok pg, seeded unreachable)
       /\ Agents.page_total pg = 2
       /\ length (Agents.page_agents pg) = 1.
Proof.
  split; [reflexivity|].
  destruct (getAll_pages 1 1 (seeded unreachable) eq_refl)
    as [pg [Hrun [Htotal [_ [Hlen _]]]]].
  exists pg. split; [exact Hrun|]. split; [exact Htotal|].
  rewrite Hlen; [reflexivity | discriminate].
Defined.

(* ================================================================== *)
(** ** Further properties of the tool facade                          *)
(* ================================================================== *)

(** Listing through the tool.  On a ready store [list_agents] changes
    nothing.  With [activeOnly] it returns the active records and a [null]
    total.  Otherwise it returns the page for [skip] (0 when omitted) and
    [limit], where an omitted or zero [limit] means 50: the page never
    holds more than [limit] records, and the total counts the whole
    collection. *)
Theorem list_agents_defaults (env : option string) (a : Args.t) (w : world) :
  store_ready w = true ->
  let run := McpServer.CallTool env "list_agents" (Some a) in
  let skip := McpServer.num_or (Args.skip a) 0 in
  let limit := McpServer.num_or (Args.limit a) 50 in
  let shown := Agents.page skip limit (agents_coll w) in
  (McpServer.flag (Args.activeOnly a) = true ->
   run w = (Ok (VObj [("success", VBool true);
                      ("agents",
                       VArr (map agent_value (filter Agents.is_active (agents_coll w))));
                      ("total", VNull)]), w))
  /\ (McpServer.flag (Args.activeOnly a) = false ->
      run w = (Ok (VObj [("success", VBool true);
                         ("agents", VArr (map agent_value shown));
                         ("total", VNum (Z.of_nat (length (agents_coll w))));
                         ("skip", VNum (Z.of_nat skip));
                         ("limit", VNum (Z.of_nat limit))]), w))
  /\ 1 <= limit
  /\ length shown <= limit
  /\ (Args.limit a = None \/ Args.limit a = Some 0 -> limit = 50)
  /\ (Args.skip a = None -> skip = 0).
Proof.
  intros Hr run skip limit shown.
  assert (Hpos : 1 <= limit).
  { unfold limit, McpServer.num_or. destruct (Args.limit a) as [[|n]|]; lia. }
  split; [|split; [|split; [exact Hpos|split; [|split]]]].
  - intros Hflag. unfold run, McpServer.CallTool, try_catch. cbn.
    unfold McpServer.list_agents, bind, McpServer.the_args, ret. rewrite Hflag.
    rewrite (getAllActive_ready w Hr). reflexivity.
  - intros Hflag. unfold run, McpServer.CallTool, try_catch. cbn.
    unfold McpServer.list_agents, bind, McpServer.the_args, ret. rewrite Hflag.
    fold skip limit. rewrite (getAll_ready skip limit w Hr). reflexivity.
  - unfold shown, Agents.page. destruct limit as [|n]; [lia|].
    rewrite length_firstn. lia.
  - unfold limit, McpServer.num_or. intros [H|H]; rewrite H; reflexivity.
  - unfold skip, McpServer.num_or. intros H; rewrite H; reflexivity.
Qed.

Lemma list_agents_defaults_witness :
  store_ready (seeded unreachable) = true
  /\ McpServer.CallTool None "list_agents" (Some second_page) (seeded unreachable)
     = (Ok (VObj [("success", VBool true);
                  ("agents", VArr [agent_value support_record]);
                  ("total", VNum 2);
                  ("skip", VNum 1);
                  ("limit", VNum 1)]), seeded unreachable).
Proof.
  split; [reflexivity|].
  destruct (list_agents_defaults None second_page (seeded unreachable) eq_refl)
    as [_ [Hpage _]].
  rewrite (Hpage eq_refl). reflexivity.
Defined.

(** Catalog and dispatcher.  A tool call never throws.  A name that is not
    in the catalog of [ListTools] is answered "Unknown tool: name" without
    any effect.  Every tool of the catalog, called without an [arguments]
    object, answers a payload with [success: false] without touching the
    store or the backend. *)
Theorem dispatcher_covers_catalog
    (env : option string) (name : string) (args : option Args.t) (w : world) :
  (exists v, fst (McpServer.CallTool env name args w) = Ok v)
  /\ (~ In name (map McpServer.tool_name McpServer.tools) ->
      McpServer.CallTool env name args w = (Ok (failure ("Unknown tool: " ++ name)), w))
  /\ (In name (map McpServer.tool_name McpServer.tools) ->
      exists v,
        McpServer.CallTool env name None w = (Ok v, w)
        /\ prop_or_undefined v "success" = VBool false
        /\ v <> failure ("Unknown tool: " ++ name)).
Proof.
  split; [|split].
  - unfold McpServer.CallTool, try_catch.
    match goal with |- context [match ?m w with _ => _ end] => destruct (m w) as [[v|e] w'] end;
      eexists; reflexivity.
  - intros Hout. unfold McpServer.CallTool, try_catch.
    repeat match goal with
           | |- context [String.eqb name ?s] =>
               let Hn := fresh "Hn" in
               assert (Hn : name <> s)
                 by (intros Heq; apply Hout; rewrite Heq; cbn; auto 20);
               apply String.eqb_neq in Hn; rewrite Hn; clear Hn
           end.
    reflexivity.
  - intros Hin. cbn in Hin.
    repeat (destruct Hin as [Hin|Hin]; [subst name|]); [..|contradiction];
      (eexists; split; [reflexivity | split; [reflexivity | discriminate]]).
Qed.

Lemma dispatcher_covers_catalog_witness :
  McpServer.CallTool None "get_agent_by_id" None (seeded unreachable)
  = (Ok (failure "Unknown tool: get_agent_by_id"), seeded unreachable).
Proof.
  destruct (dispatcher_covers_catalog None "get_agent_by_id" None (seeded unreachable))
    as [_ [Hunknown _]].
  apply Hunknown. cbn. intros H.
  repeat (destruct H as [H|H]; [discriminate H|]). exact H.
Defined.












(* ================================================================== *)
(** ** Upstream URLs                                                  *)
(* ================================================================== *)

Lemma all_chars_app (p : ascii -> bool) (s t : string) :
  all_chars p (s ++ t) = all_chars p s && all_chars p t.
Proof.
  induction s as [|c s IH]; cbn; [reflexivity|].
  rewrite IH, andb_assoc. reflexivity.
Qed.

Lemma all_chars_excludes (p : ascii -> bool) (c : ascii) (s : string) :
  all_chars p s = true -> p c = false -> mem_char c s = false.
Proof.
  intros Hall Hc. induction s as [|d s IH]; cbn in *; [reflexivity|].
  apply andb_prop in Hall. destruct Hall as [Hd Hs].
  rewrite (IH Hs), orb_false_r.
  destruct (Ascii.eqb_spec c d); [subst; congruence | reflexivity].
Qed.

Lemma count_char_app (c : ascii) (s t : string) :
  count_char c (s ++ t) = count_char c s + count_char c t.
Proof.
  induction s as [|d s IH]; cbn; [reflexivity|]. rewrite IH. lia.
Qed.

Lemma count_char_excluded (p : ascii -> bool) (c : ascii) (s : string) :
  all_chars p s = true -> p c = false -> count_char c s = 0.
Proof.
  intros Hall Hc. induction s as [|d s IH]; cbn in *; [reflexivity|].
  apply andb_prop in Hall. destruct Hall as [Hd Hs]. rewrite (IH Hs).
  destruct (Ascii.eqb_spec c d); [subst; congruence | reflexivity].
Qed.

Lemma percent_byte_output (c : ascii) :
  all_chars uri_output (percent_byte c) = true
  /\ all_chars form_output (percent_byte c) = true.
Proof. destruct c as [[] [] [] [] [] [] [] []]; split; vm_compute; reflexivity. Qed.

Lemma percent_byte_decodes (c : ascii) : unescape (percent_byte c) = c.
Proof. destruct c as [[] [] [] [] [] [] [] []]; vm_compute; reflexivity. Qed.

Lemma percent_byte_inj (c d : ascii) : percent_byte c = percent_byte d -> c = d.
Proof.
  intros H. rewrite <- (percent_byte_decodes c), <- (percent_byte_decodes d), H.
  reflexivity.
Qed.

Lemma encode_output (s : string) : all_chars uri_output (encodeURIComponent s) = true.
Proof.
  induction s as [|c s IH]; cbn [encodeURIComponent]; [reflexivity|].
  destruct (uri_unreserved c) eqn:Hc.
  - cbn [all_chars]. unfold uri_output at 1. rewrite Hc. exact IH.
  - rewrite all_chars_app, (proj1 (percent_byte_output c)), IH. reflexivity.
Qed.

Lemma escape_split (c d : ascii) (x y : string) :
  (percent_byte c ++ x = percent_byte d ++ y)%string ->
  percent_byte c = percent_byte d /\ x = y.
Proof.
  intros H.
  assert (Hc : forall e z, (percent_byte e ++ z)%string
                           = String "%" (String (hex_digit (nat_of_ascii e / 16))
                                           (String (hex_digit (nat_of_ascii e mod 16)) z)))
    by reflexivity.
  rewrite !Hc in H. unfold percent_byte.
  set (a := hex_digit (nat_of_ascii c / 16)) in *.
  set (b := hex_digit (nat_of_ascii c mod 16)) in *.
  set (a' := hex_digit (nat_of_ascii d / 16)) in *.
  set (b' := hex_digit (nat_of_ascii d mod 16)) in *.
  clearbody a b a' b'. injection H as H1 H2 H3. subst. split; reflexivity.
Qed.

Lemma encode_inj (s t : string) : encodeURIComponent s = encodeURIComponent t -> s = t.
Proof.
  revert t. induction s as [|c s IH]; intros [|d t] H; cbn [encodeURIComponent] in H.
  - reflexivity.
  - destruct (uri_unreserved d); [discriminate|].
    unfold percent_byte in H. cbn [append] in H. discriminate.
  - destruct (uri_unreserved c); [discriminate|].
    unfold percent_byte in H. cbn [append] in H. discriminate.
  - destruct (uri_unreserved c) eqn:Hc, (uri_unreserved d) eqn:Hd.
    + injection H as Hcd Hst. subst d. rewrite (IH t Hst). reflexivity.
    + unfold percent_byte in H. cbn [append] in H. injection H as Hcd _. subst c.
      discriminate.
    + unfold percent_byte in H. cbn [append] in H. injection H as Hcd _. subst d.
      discriminate.
    + destruct (escape_split c d _ _ H) as [Hb Hrest].
      rewrite (percent_byte_inj c d Hb), (IH t Hrest). reflexivity.
Qed.

Lemma append_cancel_l (s a b : string) : (s ++ a = s ++ b)%string -> a = b.
Proof.
  induction s as [|c s IH]; cbn; intros H; [exact H|].
  injection H as H. exact (IH H).
Qed.

Lemma encode_unreserved (s : string) :
  all_chars uri_unreserved s = true -> encodeURIComponent s = s.
Proof.
  induction s as [|c s IH]; cbn; [reflexivity|].
  intros H. apply andb_prop in H. destruct H as [Hc Hs].
  rewrite Hc, (IH Hs). reflexivity.
Qed.

(** Phone numbers in upstream paths.  The URL of the prompts-by-phone
    lookup is the base URL, the fixed path and one encoded segment: the
    segment consists of unreserved characters and percent escapes only, so
    it holds no [/], [?], [#], [&], [=], [+] or blank whatever the phone
    number is; a number made of unreserved characters is passed as it is;
    and two different numbers never give the same URL. *)
Theorem prompt_url_segment (env : option string) (p : string) :
  let segment := encodeURIComponent p in
  HttpBridge.prompt_url env (Some p)
  = (HttpBridge.API_BASE_URL env ++ "/api/prompts/by-phone/" ++ segment)%string
  /\ all_chars uri_output segment = true
  /\ (forall c, In c ["/"; "?"; "#"; "&"; "="; "+"; " "]%char -> mem_char c segment = false)
  /\ (all_chars uri_unreserved p = true -> segment = p)
  /\ (forall q, HttpBridge.prompt_url env (Some q) = HttpBridge.prompt_url env (Some p) ->
        q = p).
Proof.
  intros segment. split; [reflexivity|]. split; [apply encode_output|].
  split; [|split].
  - intros c Hc. apply (all_chars_excludes uri_output); [apply encode_output|].
    cbn in Hc. repeat (destruct Hc as [Hc|Hc]; [subst c; reflexivity|]). contradiction.
  - apply encode_unreserved.
  - intros q H. unfold HttpBridge.prompt_url in H. cbn [interp] in H.
    apply append_cancel_l in H. apply append_cancel_l in H. apply encode_inj. exact H.
Qed.

Lemma prompt_url_segment_witness :
  HttpBridge.prompt_url None (Some "+1 (202) 555/1234")
  = "https://digital-api-tef8.onrender.com/api/prompts/by-phone/%2B1%20(202)%20555%2F1234"
  /\ mem_char "/" (encodeURIComponent "+1 (202) 555/1234") = false.
Proof.
  destruct (prompt_url_segment None "+1 (202) 555/1234") as [Hurl [_ [Hsafe _]]].
  split; [rewrite Hurl; reflexivity|].
  apply Hsafe. left. reflexivity.
Defined.

Lemma form_encode_output (s : string) : all_chars form_output (form_encode s) = true.
Proof.
  induction s as [|c s IH]; cbn [form_encode]; [reflexivity|].
  destruct (form_safe c) eqn:Hc.
  - cbn [all_chars]. unfold form_output at 1. rewrite Hc. exact IH.
  - destruct (Ascii.eqb c " ").
    + cbn [all_chars]. rewrite IH. reflexivity.
    + rewrite all_chars_app, (proj2 (percent_byte_output c)), IH. reflexivity.
Qed.

Lemma form_encode_count (c : ascii) (s : string) :
  form_output c = false -> count_char c (form_encode s) = 0.
Proof. apply count_char_excluded. apply form_encode_output. Qed.

(** Query strings.  The query string built from a list of parameters has
    one [=] per parameter and one [&] between two parameters, whatever the
    names and values contain: a value cannot add a parameter of its own.
    The availability route sends exactly this string after [?]. *)
Theorem query_string_separators
    (env : option string) (params : list (string * string)) :
  count_char "=" (params_toString params) = length params
  /\ count_char "&" (params_toString params) = pred (length params)
  /\ HttpBridge.availability_url env params
     = (HttpBridge.API_BASE_URL env ++ "/api/availability?" ++ params_toString params)%string.
Proof.
  split; [|split; [|reflexivity]].
  - induction params as [|[k v] rest IH]; [reflexivity|].
    destruct rest as [|kv rest].
    + cbn. rewrite !count_char_app. cbn.
      rewrite !(form_encode_count "=") by reflexivity. reflexivity.
    + change (params_toString ((k, v) :: kv :: rest))
        with (form_encode k ++ "=" ++ form_encode v ++ "&" ++ params_toString (kv :: rest))%string.
      rewrite !count_char_app, IH. cbn [count_char length Ascii.eqb Bool.eqb].
      rewrite !(form_encode_count "=") by reflexivity. cbn. lia.
  - induction params as [|[k v] rest IH]; [reflexivity|].
    destruct rest as [|kv rest].
    + cbn. rewrite !count_char_app. cbn.
      rewrite !(form_encode_count "&") by reflexivity. reflexivity.
    + change (params_toString ((k, v) :: kv :: rest))
        with (form_encode k ++ "=" ++ form_encode v ++ "&" ++ params_toString (kv :: rest))%string.
      rewrite !count_char_app, IH. cbn [count_char length Ascii.eqb Bool.eqb pred].
      rewrite !(form_encode_count "&") by reflexivity. cbn. lia.
Qed.

Lemma query_string_separators_witness :
  params_toString [("date", "2025-01-15&doctorId=7"); ("doctorName", "Dr. Smith")]
  = "date=2025-01-15%26doctorId%3D7&doctorName=Dr.+Smith"
  /\ count_char "&" (params_toString [("date", "2025-01-15&doctorId=7");
                                      ("doctorName", "Dr. Smith")]) = 1.
Proof.
  destruct (query_string_separators None
              [("date", "2025-01-15&doctorId=7"); ("doctorName", "Dr. Smith")])
    as [_ [Hamp _]].
  split; [reflexivity | exact Hamp].
Defined.

(* ================================================================== *)
(** ** Further properties of the HTTP facade                          *)
(* ================================================================== *)

Lemma truthy_str_some (v : option string) :
  truthy_str v = true -> exists s, v = Some s /\ s <> "".
Proof.
  destruct v as [s|]; cbn; [|discriminate].
  destruct (String.eqb_spec s ""); [discriminate|]. intros _. eauto.
Qed.

(** Create, then resolve.  On a store that respects its unique indexes, a
    [POST /api/create-agent] answered with status 200 carried the four
    required fields, says "Updated" when a record with the [agentId]
    existed and "Created" otherwise, and from then on, whenever the
    upstream lookup yields no prompt, [POST /api/get-agent-prompt] with
    the same phone number answers that agent: its name, its prompt and its
    [active] flag, which is [true] when the request left it out. *)
Theorem create_agent_then_prompt
    (env : option string) (agentId_ agentName_ phoneNumber_ : option string)
    (agentPrompt_ : value) (active_ : option bool) (metadata_ : value)
    (w : world) (reply : http_response) :
  well_keyed w ->
  fst (HttpBridge.create_agent agentId_ agentName_ phoneNumber_ agentPrompt_
         active_ metadata_ w) = Ok reply ->
  status reply = 200%Z ->
  let w' := after (HttpBridge.create_agent agentId_ agentName_ phoneNumber_ agentPrompt_
                     active_ metadata_) w in
  exists id name p,
    agentId_ = Some id /\ agentName_ = Some name /\ phoneNumber_ = Some p
    /\ truthy agentPrompt_ = true
    /\ body reply
       = VObj [("success", VBool true);
               ("message",
                VStr (if existsb (fun d => Mongo.key_eqb (agentId d) (Some id))
                           (agents_coll w)
                      then "Updated" else "Created"));
               ("agentId", VStr id)]
    /\ (positive_prompt (upstream w' (prompt_request env p)) = None ->
        fst (HttpBridge.get_agent_prompt env (Some p) w')
        = Ok (res_json
                (VObj [("success", VBool true);
                       ("source", VStr "agents");
                       ("agentId", VStr id);
                       ("agentName", VStr name);
                       ("phoneNumber", VStr p);
                       ("agentPrompt", Mongo.bson agentPrompt_);
                       ("active",
                        VBool (match active_ with Some b => b | None => true end))]))).
Proof.
  intros Hkeys Hreply Hstatus w'. subst w'. unfold after.
  unfold HttpBridge.create_agent, try_catch, bind in *.
  destruct (truthy_str agentId_) eqn:H1; cbn [negb orb] in *;
    [|cbn in Hreply; inversion Hreply; subst reply; discriminate].
  destruct (truthy_str agentName_) eqn:H2; cbn [negb orb] in *;
    [|cbn in Hreply; inversion Hreply; subst reply; discriminate].
  destruct (truthy_str phoneNumber_) eqn:H3; cbn [negb orb] in *;
    [|cbn in Hreply; inversion Hreply; subst reply; discriminate].
  destruct (truthy agentPrompt_) eqn:H4; cbn [negb orb] in *;
    [|cbn in Hreply; inversion Hreply; subst reply; discriminate].
  set (data := mk_agent_data agentId_ agentName_ phoneNumber_ agentPrompt_
                 (match active_ with Some b => Some b | None => Some true end)
                 (or_else metadata_ (VObj []))) in *.
  destruct (truthy_str_some _ H1) as [id [Hid _]].
  destruct (truthy_str_some _ H2) as [name [Hname _]].
  destruct (truthy_str_some _ H3) as [p [Hp Hpne]].
  pose proof (upsert_then_lookup data w) as Hround.
  pose proof (upsert_ok_ready data w) as Hready.
  destruct (Agents.upsert data w) as [[r|e] w1] eqn:Hup;
    [|cbn in Hreply; inversion Hreply; subst reply; discriminate].
  unfold ret in *. cbn [fst snd] in *.
  inversion Hreply; subst reply. clear Hreply Hstatus.
  exists id, name, p. split; [exact Hid|]. split; [exact Hname|]. split; [exact Hp|].
  split; [reflexivity|]. cbn [snd body]. split.
  - rewrite Hid. cbn [of_str]. do 3 f_equal. f_equal. f_equal. f_equal.
    specialize (Hready r eq_refl).
    rewrite (upsert_run data w Hready) in Hup.
    destruct (updateOne_ok_shape _ _ _ _ _ _ Hup) as [_ [_ [_ Hshape]]].
    change (data_agentId data) with agentId_ in Hshape. rewrite Hid in Hshape.
    destruct Hshape as [[before [d [after_ [Hcoll [Hd [_ [_ Hr]]]]]]]
                       | [[f [_ [Habsent [_ [_ Hr]]]]] | [Hnone _]]].
    + subst r. cbn.
      assert (He : existsb (fun o => Mongo.key_eqb (agentId o) (Some id)) (agents_coll w)
                   = true).
      { apply existsb_exists. exists d. split.
        - rewrite Hcoll. apply in_or_app. right. left. reflexivity.
        - apply key_eqb_eq. exact Hd. }
      rewrite He. reflexivity.
    + subst r. cbn.
      assert (He : existsb (fun o => Mongo.key_eqb (agentId o) (Some id)) (agents_coll w)
                   = false).
      { apply existsb_none. intros o Ho. apply key_eqb_neq. apply Habsent. exact Ho. }
      rewrite He. reflexivity.
    + discriminate.
  - intros Hneg.
    destruct (Hround r Hkeys eq_refl) as [d [Hwritten [_ Hlookup]]].
    unfold after in Hlookup. rewrite Hup in Hlookup. cbn [snd] in Hlookup.
    change (data_phoneNumber data) with phoneNumber_ in Hlookup. rewrite Hp in Hlookup.
    rewrite (get_agent_prompt_run env p Hpne w1), Hneg, Hlookup. cbn [fst local_reply].
    destruct Hwritten as [Wid [Wname [Wphone [Wprompt [Wactive _]]]]].
    unfold HttpBridge.agent_payload.
    rewrite Wid, Wname, Wphone, Wprompt, Wactive. cbn. rewrite Hid, Hname, Hp. cbn.
    destruct active_ as [b|]; reflexivity.
Qed.

Lemma create_agent_then_prompt_witness :
  well_keyed (connected unreachable)
  /\ fst (HttpBridge.get_agent_prompt None (Some "+12025559012")
            (after (HttpBridge.create_agent (Some "AGENT003") (Some "Appointment Scheduler")
                      (Some "+12025559012") (VStr "You schedule appointments.")
                      None VUndefined)
               (connected unreachable)))
     = Ok (res_json
             (VObj [("success", VBool true);
                    ("source", VStr "agents");
                    ("agentId", VStr "AGENT003");
                    ("agentName", VStr "Appointment Scheduler");
                    ("phoneNumber", VStr "+12025559012");
                    ("agentPrompt", VStr "You schedule appointments.");
                    ("active", VBool true)])).
Proof.
  assert (Hkeys : well_keyed (connected unreachable)) by (repeat split).
  split; [exact Hkeys|].
  destruct (create_agent_then_prompt None (Some "AGENT003") (Some "Appointment Scheduler")
              (Some "+12025559012") (VStr "You schedule appointments.") None VUndefined
              (connected unreachable)
              (res_json (VObj [("success", VBool true);
                               ("message", VStr "Created");
                               ("agentId", VStr "AGENT003")]))
              Hkeys eq_refl eq_refl)
    as [id [name [p [Hid [Hname [Hp [_ [_ Hprompt]]]]]]]].
  injection Hid as Hid. injection Hname as Hname. injection Hp as Hp. subst id name p.
  exact (Hprompt eq_refl).
Defined.

(* ================================================================== *)
(** ** What the handlers leave alone                                  *)
(* ================================================================== *)

Lemma ro_ret {A : Type} (a : A) : reads_only (ret a).
Proof. intros w. reflexivity. Qed.

Lemma ro_throw {A : Type} (e : js_error) : reads_only (@throw A e).
Proof. intros w. reflexivity. Qed.

Lemma ro_lift {A : Type} (o : outcome A) : reads_only (lift o).
Proof. intros w. reflexivity. Qed.

Lemma ro_gets {A : Type} (f : world -> A) : reads_only (gets f).
Proof. intros w. reflexivity. Qed.

Lemma ro_fetch (r : request) : reads_only (fetch r).
Proof. intros w. reflexivity. Qed.

Lemma ro_bind {A B : Type} (m : M A) (k : A -> M B) :
  reads_only m -> (forall a, reads_only (k a)) -> reads_only (bind m k).
Proof.
  intros Hm Hk w. unfold bind. specialize (Hm w).
  destruct (m w) as [[a|e] w1]; cbn [snd] in *.
  - rewrite (Hk a w1). exact Hm.
  - exact Hm.
Qed.

Lemma ro_try {A : Type} (m : M A) (h : js_error -> M A) :
  reads_only m -> (forall e, reads_only (h e)) -> reads_only (try_catch m h).
Proof.
  intros Hm Hh w. unfold try_catch. specialize (Hm w).
  destruct (m w) as [[a|e] w1]; cbn [snd] in *.
  - exact Hm.
  - rewrite (Hh e w1). exact Hm.
Qed.

Lemma ro_command {A : Type} (m : M A) : reads_only m -> reads_only (Mongo.command m).
Proof.
  intros Hm w. unfold Mongo.command. destruct (mongo_up w); [apply Hm | reflexivity].
Qed.

Create HintDb frame.
#[local] Hint Resolve ro_ret ro_throw ro_lift ro_gets ro_fetch ro_command : frame.

(** Walks down a handler: sequencing, [try]/[catch] and case analysis on
    the values it branches on. *)
Ltac frame :=
  repeat first
    [ solve [auto with frame]
    | apply ro_bind; [|intros ?]
    | apply ro_try; [|intros ?]
    | apply ro_command
    | match goal with
      | |- reads_only (if ?b then _ else _) => destruct b
      | |- reads_only (match ?x with _ => _ end) => destruct x
      end ].

Lemma ro_getDB : reads_only getDB.
Proof. unfold getDB. frame. Qed.

Lemma ro_await_fetch (r : request) : reads_only (await_fetch r).
Proof. unfold await_fetch. frame. Qed.

Lemma ro_response_json (b : option value) : reads_only (response_json b).
Proof. unfold response_json. frame. Qed.

#[local] Hint Resolve ro_getDB ro_await_fetch ro_response_json : frame.

Lemma ro_getByPhoneNumber (phone : option string) :
  reads_only (Agents.getByPhoneNumber phone).
Proof. unfold Agents.getByPhoneNumber, Mongo.findOne. frame. Qed.

Lemma ro_getAllActive : reads_only Agents.getAllActive.
Proof. unfold Agents.getAllActive, Mongo.find_toArray. frame. Qed.

Lemma ro_getAll (skip limit : nat) : reads_only (Agents.getAll skip limit).
Proof. unfold Agents.getAll, Mongo.countDocuments. frame. Qed.

#[local] Hint Resolve ro_getByPhoneNumber ro_getAllActive ro_getAll : frame.

Lemma ro_server_error (e : js_error) : reads_only (HttpBridge.server_error e).
Proof. unfold HttpBridge.server_error. frame. Qed.

#[local] Hint Resolve ro_server_error : frame.

Lemma ro_proxy (wanted : string) (build : Args.t -> request) (failed : string)
    (args : option Args.t) :
  reads_only (McpServer.proxy wanted build failed args).
Proof. unfold McpServer.proxy, McpServer.the_args. frame. Qed.

#[local] Hint Resolve ro_proxy : frame.

(** Who writes.  Of the HTTP routes only [POST /api/create-agent], and of
    the tools only [create_agent], [delete_agent] and
    [toggle_agent_status], can change the connection state or the
    collection: every other route and every other tool call, known or
    unknown, with or without arguments, leaves everything but the trace of
    outbound requests as it was, whatever the backend answers. *)
Theorem only_writers_write (env : option string) :
  (forall phone, reads_only (HttpBridge.get_agent_prompt env phone))
  /\ (forall query, reads_only (HttpBridge.get_availability env query))
  /\ (forall a d n i sp, reads_only (HttpBridge.post_availability env a d n i sp))
  /\ (forall phone sp, reads_only (HttpBridge.get_doctors env phone sp))
  /\ (forall phone sp, reads_only (HttpBridge.post_doctors env phone sp))
  /\ (forall body, reads_only (HttpBridge.book_appointment env body))
  /\ (forall body, reads_only (HttpBridge.cancel_appointment env body))
  /\ reads_only HttpBridge.get_agents
  /\ (forall name args,
        ~ In name writing_tools -> reads_only (McpServer.CallTool env name args)).
Proof.
  split; [|split; [|split; [|split; [|split; [|split; [|split; [|split]]]]]]].
  - intros phone. unfold HttpBridge.get_agent_prompt, HttpBridge.try_prompts. frame.
  - intros query. unfold HttpBridge.get_availability. frame.
  - intros a d n i sp. unfold HttpBridge.post_availability. cbv zeta. frame.
  - intros phone sp. unfold HttpBridge.get_doctors, HttpBridge.doctors. cbv zeta. frame.
  - intros phone sp. unfold HttpBridge.post_doctors, HttpBridge.doctors. cbv zeta. frame.
  - intros body. unfold HttpBridge.book_appointment. frame.
  - intros body. unfold HttpBridge.cancel_appointment. frame.
  - unfold HttpBridge.get_agents. frame.
  - intros name args Hout. unfold McpServer.CallTool.
    apply ro_try; [|intros e; apply ro_ret].
    destruct (String.eqb_spec name "create_agent") as [E|_];
      [exfalso; apply Hout; rewrite E; cbn; auto|].
    destruct (name =? "get_agent_by_phone")%string;
      [unfold McpServer.get_agent_by_phone, McpServer.the_args; frame|].
    destruct (name =? "list_agents")%string;
      [unfold McpServer.list_agents, McpServer.the_args; frame|].
    destruct (String.eqb_spec name "delete_agent") as [E|_];
      [exfalso; apply Hout; rewrite E; cbn; auto|].
    destruct (String.eqb_spec name "toggle_agent_status") as [E|_];
      [exfalso; apply Hout; rewrite E; cbn; auto|].
    unfold McpServer.get_prompt_by_phone, McpServer.check_doctor_availability,
      McpServer.get_doctors, McpServer.book_appointment, McpServer.cancel_appointment.
    destruct (name =? "get_prompt_by_phone")%string; [frame|].
    destruct (name =? "check_doctor_availability")%string; [frame|].
    destruct (name =? "get_doctors")%string; [frame|].
    destruct (name =? "book_appointment")%string; [frame|].
    destruct (name =? "cancel_appointment")%string; [frame|].
    destruct (name =? "find_patient_appointments")%string; [|frame].
    unfold McpServer.find_patient_appointments, McpServer.the_args. cbv zeta. frame.
Qed.

Lemma only_writers_write_witness :
  agents_coll
    (after (HttpBridge.book_appointment None booking)
       (seeded (answering 201 (VObj [("success", VBool true)]))))
  = [sales_record; support_record].
Proof.
  destruct (only_writers_write None) as [_ [_ [_ [_ [_ [Hbook _]]]]]].
  pose proof (Hbook booking (seeded (answering 201 (VObj [("success", VBool true)])))) as H.
  exact (f_equal (fun t => snd (fst (fst t))) H).
Defined.

(* ================================================================== *)
(** ** Closing and reopening the connection                           *)
(* ================================================================== *)

(** Close, then reconnect.  Without a client [closeDB] does nothing.  With
    one it forgets client and handle, so [getDB] throws again and a second
    [closeDB] does nothing; the collection and its indexes stay in the
    deployment, and on a reachable deployment that respects its unique
    indexes the next [connectDB] opens a new connection to the same
    records. *)
Theorem closeDB_then_reconnect (w : world) :
  let closed := set_db None (set_client None w) in
  (client w = None -> closeDB w = (Ok tt, w))
  /\ (forall c,
        client w = Some c ->
        closeDB w = (Ok tt, closed)
        /\ getDB closed = (Throw not_initialized, closed)
        /\ closeDB closed = (Ok tt, closed)
        /\ agents_coll closed = agents_coll w
        /\ (mongo_up w = true -> well_keyed w ->
            connectDB closed = (Ok (connections w), opened closed)
            /\ connections (opened closed) = S (connections w)
            /\ agents_coll (opened closed) = agents_coll w
            /\ well_keyed (opened closed))).
Proof.
  intros closed. split.
  - intros Hc. unfold closeDB, bind, gets. rewrite Hc. reflexivity.
  - intros c Hc.
    split; [unfold closeDB, bind, gets, modify; rewrite Hc; reflexivity|].
    split; [reflexivity|]. split; [reflexivity|]. split; [reflexivity|].
    intros Hup [_ [_ [Hid Hphone]]].
    destruct (connectDB_initializes closed eq_refl Hup Hid Hphone) as [Hrun [_ [_ Hkeys]]].
    split; [exact Hrun|]. split; [reflexivity|]. split; [reflexivity | exact Hkeys].
Qed.

Lemma closeDB_then_reconnect_witness :
  closeDB (seeded unreachable)
  = (Ok tt, set_db None (set_client None (seeded unreachable)))
  /\ fst (connectDB (set_db None (set_client None (seeded unreachable)))) = Ok 1.
Proof.
  assert (Hkeys : well_keyed (seeded unreachable)) by (repeat split).
  destruct (closeDB_then_reconnect (seeded unreachable)) as [_ Hclose].
  destruct (Hclose 0 eq_refl) as [Hrun [_ [_ [_ Hagain]]]].
  split; [exact Hrun|].
  destruct (Hagain eq_refl Hkeys) as [Hconnect _]. rewrite Hconnect. reflexivity.
Defined.
